(** * Weather Dashboard: the forecast pipeline of [Weather_dashboard_main.py]

    A shallow embedding of the slots of [WeatherApp] ([fetch], [_on_reply],
    [_handle_geocode], [_handle_forecast], [_fav_add], [_fav_remove]) and of
    the helpers they call, followed by the properties of the pipeline.

    Python values are embedded as the JSON values [json.loads] produces, with
    the dynamic operations the slots apply to them ([len], indexing, [.get],
    [float], [int], truthiness).  The widgets a slot reads or writes are the
    fields of one record, threaded through a state-and-exception monad: an
    exception leaves the writes made before it in place, as in Python. *)

From Stdlib Require Import String Ascii ZArith Bool Lia List.
From Stdlib Require Import Floats.PrimFloat Floats.FloatOps Floats.SpecFloat.
From Stdlib Require DecimalString.
Import ListNotations.

Local Open Scope string_scope.
Local Open Scope Z_scope.

(** ** Exceptions and results *)

Inductive exn :=
| TypeError | ValueError | AttributeError | KeyError | IndexError | OverflowError.

Inductive result (A : Type) :=
| Ok (a : A)
| Raise (e : exn).
Arguments Ok {A} a.
Arguments Raise {A} e.

Definition bindR {A B} (c : result A) (k : A -> result B) : result B :=
  match c with
  | Ok a => k a
  | Raise e => Raise e
  end.

Notation "x <- c ;; k" := (bindR c (fun x => k))
  (at level 100, c at next level, right associativity).

Definition raises {A} (c : result A) : Prop := exists e, c = Raise e.

(** [[f(x) for x in xs]]: the first exception ends the comprehension. *)
Fixpoint mapR {A B} (f : A -> result B) (xs : list A) : result (list B) :=
  match xs with
  | [] => Ok []
  | x :: xs' => y <- f x ;; ys <- mapR f xs' ;; Ok (y :: ys)
  end.

(** ** Strings

    A [str] is embedded as the Rocq string of its UTF-8 encoding, one [ascii]
    per byte: a character of the ASCII range is one byte, any other character
    a leading byte followed by one to three continuation bytes.  The literals
    of the source outside the ASCII range (the degree sign, the dash and the
    weather glyphs) are the bytes the file has.  What Python does character
    by character ([len], indexing, iteration, [strip]) goes through [chars]. *)

Definition is_continuation (c : ascii) : bool :=
  let n := nat_of_ascii c in ((128 <=? n) && (n <? 192))%nat.

Definition starts_with_continuation (s : string) : bool :=
  match s with
  | String d _ => is_continuation d
  | EmptyString => false
  end.

(** The characters of a string, each with the bytes that encode it: a byte
    belongs to the character before it when it is a continuation byte. *)
Fixpoint chars (s : string) : list string :=
  match s with
  | EmptyString => []
  | String c s' =>
      match chars s' with
      | ch :: rest =>
          if starts_with_continuation s' then String c ch :: rest
          else String c "" :: ch :: rest
      | [] => [String c ""]
      end
  end.

(** [ord(ch)] for one character: the payload bits of the leading byte, then
    six bits of every continuation byte. *)
Definition code_point (ch : string) : N :=
  match ch with
  | EmptyString => 0%N
  | String c EmptyString => N_of_ascii c
  | String c rest =>
      fold_left (fun acc b => (acc * 64 + N_of_ascii b mod 64)%N)
        (list_ascii_of_string rest)
        (N_of_ascii c mod 2 ^ (6 - N.of_nat (String.length rest)))%N
  end.

(** [ch.isspace()], the characters [str.strip()] removes and [\s] matches:
    U+0009 to U+000D, U+001C to U+0020, U+0085, U+00A0, U+1680, U+2000 to
    U+200A, U+2028, U+2029, U+202F, U+205F and U+3000. *)
Definition isspace (ch : string) : bool :=
  let n := code_point ch in
  ((9 <=? n) && (n <=? 13) || (28 <=? n) && (n <=? 32) || (n =? 133) || (n =? 160)
   || (n =? 5760) || (8192 <=? n) && (n <=? 8202) || (n =? 8232) || (n =? 8233)
   || (n =? 8239) || (n =? 8287) || (n =? 12288))%N.

(** ** Values *)

(** A parsed JSON document.  A [dict] keeps its keys in insertion order, so
    it is an association list; [json.loads] never produces a repeated key. *)
#[warnings="-register-all"] Inductive json :=
| JNull
| JBool (b : bool)
| JInt (n : Z)
| JFloat (f : float)
| JStr (s : string)
| JList (l : list json)
| JDict (d : list (string * json)).

Definition dict := list (string * json).

Fixpoint dict_get (k : string) (d : dict) : option json :=
  match d with
  | [] => None
  | (k', v) :: d' => if String.eqb k k' then Some v else dict_get k d'
  end.

(** [d[k] = v]: an existing key keeps its position. *)
Fixpoint dict_set (k : string) (v : json) (d : dict) : dict :=
  match d with
  | [] => [(k, v)]
  | (k', v') :: d' =>
      if String.eqb k k' then (k', v) :: d' else (k', v') :: dict_set k v d'
  end.

(** [d.setdefault(k, v)]: the value now stored under [k], and the dict. *)
Definition dict_setdefault (k : string) (v : json) (d : dict) : json * dict :=
  match dict_get k d with
  | Some v' => (v', d)
  | None => (v, dict_set k v d)
  end.

(** [d.get(k, dflt)] on a dict. *)
Definition dict_get_or (k : string) (dflt : json) (d : dict) : json :=
  match dict_get k d with
  | Some v => v
  | None => dflt
  end.

(** Truth value testing ([if x], [x or y], [not x]). *)
Definition truthy (j : json) : bool :=
  match j with
  | JNull => false
  | JBool b => b
  | JInt n => negb (n =? 0)
  | JFloat f => negb (is_zero f)
  | JStr s => negb (String.eqb s "")
  | JList l => match l with [] => false | _ => true end
  | JDict d => match d with [] => false | _ => true end
  end.

Definition py_or (x y : json) : json := if truthy x then x else y.

(** [x.get(k, dflt)]: only a dict has the method. *)
Definition py_get (x : json) (k : string) (dflt : json) : result json :=
  match x with
  | JDict d => Ok (dict_get_or k dflt d)
  | _ => Raise AttributeError
  end.

Definition py_len (x : json) : result nat :=
  match x with
  | JList l => Ok (length l)
  | JStr s => Ok (length (chars s))
  | JDict d => Ok (length d)
  | _ => Raise TypeError
  end.

(** [x[i]] for an index [i >= 0]. *)
Definition py_index (x : json) (i : nat) : result json :=
  match x with
  | JList l => match nth_error l i with Some v => Ok v | None => Raise IndexError end
  | JStr s => match nth_error (chars s) i with Some ch => Ok (JStr ch) | None => Raise IndexError end
  | JDict _ => Raise KeyError
  | _ => Raise TypeError
  end.

(** [x[k]] for a string key. *)
Definition py_item (x : json) (k : string) : result json :=
  match x with
  | JDict d => match dict_get k d with Some v => Ok v | None => Raise KeyError end
  | _ => Raise TypeError
  end.

(** The items [for t in x] runs over. *)
Definition py_iter (x : json) : result (list json) :=
  match x with
  | JList l => Ok l
  | JStr s => Ok (map JStr (chars s))
  | JDict d => Ok (map (fun kv => JStr (fst kv)) d)
  | _ => Raise TypeError
  end.

(** [x == s] for a string literal [s]. *)
Definition eq_str (x : json) (s : string) : bool :=
  match x with
  | JStr s' => String.eqb s' s
  | _ => false
  end.

(** ** Numbers *)

Definition fzero : float := 0%float.
Definition fone : float := 1%float.

(** [float(n)] for an int: round to nearest even in binary64; a magnitude
    that rounds past the largest finite float is an [OverflowError]. *)
Definition float_of_int (n : Z) : result float :=
  let f := SF2Prim (binary_normalize 53 1024 n 0 false) in
  if is_infinity f then Raise OverflowError else Ok f.

(** [int(f)] for a float: truncation towards zero. *)
Definition int_of_float (f : float) : result Z :=
  match Prim2SF f with
  | S754_zero _ => Ok 0
  | S754_infinity _ => Raise OverflowError
  | S754_nan => Raise ValueError
  | S754_finite s m e =>
      let a := if 0 <=? e then Z.pos m * 2 ^ e else Z.pos m / 2 ^ (- e) in
      Ok (if s then - a else a)
  end.

Definition string_of_nat (n : N) : string :=
  DecimalString.NilZero.string_of_uint (N.to_uint n).

(** [format(f, ".0f")]: the nearest integer, ties to even, keeping the sign. *)
Definition format_0f (f : float) : string :=
  match Prim2SF f with
  | S754_zero s => if s then "-0" else "0"
  | S754_infinity s => if s then "-inf" else "inf"
  | S754_nan => "nan"
  | S754_finite s m e =>
      let a :=
        if 0 <=? e then Z.pos m * 2 ^ e
        else
          let d := 2 ^ (- e) in
          let q := Z.pos m / d in
          let r := Z.pos m mod d in
          if (d <? 2 * r) || ((d =? 2 * r) && Z.odd q) then q + 1 else q in
      (if s then "-" else "") ++ string_of_nat (Z.to_N a)
  end.

Definition string_of_int (n : Z) : string :=
  (if n <? 0 then "-" else "") ++ string_of_nat (Z.abs_N n).

(** ** String methods *)

(** The characters left once the leading white space is dropped. *)
Fixpoint lstrip_chars (l : list string) : list string :=
  match l with
  | ch :: l' => if isspace ch then lstrip_chars l' else l
  | [] => []
  end.

Definition rstrip_chars (l : list string) : list string :=
  rev (lstrip_chars (rev l)).

(** [s.strip()]: white space is removed from both ends, character by
    character. *)
Definition strip (s : string) : string :=
  String.concat "" (rstrip_chars (lstrip_chars (chars s))).

(** [s.lstrip("0")] *)
Fixpoint lstrip_zero (s : string) : string :=
  match s with
  | String c s' => if Ascii.eqb c "0" then lstrip_zero s' else s
  | EmptyString => EmptyString
  end.

(** [s.endswith(suf)] *)
Definition endswith (s suf : string) : bool :=
  let n := String.length s in
  let k := String.length suf in
  (k <=? n)%nat && String.eqb (substring (n - k) k s) suf.

Definition is_lower (c : ascii) : bool :=
  let n := nat_of_ascii c in ((97 <=? n) && (n <=? 122))%nat.
Definition is_upper (c : ascii) : bool :=
  let n := nat_of_ascii c in ((65 <=? n) && (n <=? 90))%nat.
Definition to_upper (c : ascii) : ascii :=
  if is_lower c then ascii_of_nat (nat_of_ascii c - 32) else c.
Definition to_lower (c : ascii) : ascii :=
  if is_upper c then ascii_of_nat (nat_of_ascii c + 32) else c.

Fixpoint title_from (in_word : bool) (s : string) : string :=
  match s with
  | EmptyString => EmptyString
  | String c s' =>
      if is_lower c || is_upper c
      then String (if in_word then to_lower c else to_upper c) (title_from true s')
      else String c (title_from false s')
  end.

(** [s.title()] *)
Definition title (s : string) : string := title_from false s.

Fixpoint join_strs (sep : string) (parts : list string) : string :=
  match parts with
  | [] => ""
  | [p] => p
  | p :: ps => p ++ sep ++ join_strs sep ps
  end.

Definition as_str (x : json) : result string :=
  match x with
  | JStr s => Ok s
  | _ => Raise TypeError
  end.

(** [sep.join(parts)]: every item has to be a [str]. *)
Definition py_join (sep : string) (parts : list json) : result string :=
  ss <- mapR as_str parts ;; Ok (join_strs sep ss).

(** ** Dates and times *)

Record date := { year : Z; month : Z; day : Z }.

(** The fields of a [datetime] the program reads. *)
Record datetime := { dt_date : date; hour : Z; minute : Z }.

(** [d1.isoformat() == d2.isoformat()]: the ISO text of a date determines
    its three fields. *)
Definition date_eqb (d1 d2 : date) : bool :=
  (year d1 =? year d2) && (month d1 =? month d2) && (day d1 =? day d2).

Definition is_leap (y : Z) : bool :=
  (y mod 4 =? 0) && (negb (y mod 100 =? 0) || (y mod 400 =? 0)).

Definition days_before_year (y : Z) : Z :=
  let p := y - 1 in p * 365 + p / 4 - p / 100 + p / 400.

Definition days_before_month (y m : Z) : Z :=
  nth (Z.to_nat (m - 1)) [0; 31; 59; 90; 120; 151; 181; 212; 243; 273; 304; 334] 0
  + (if (2 <? m) && is_leap y then 1 else 0).

Definition toordinal (d : date) : Z :=
  days_before_year (year d) + days_before_month (year d) (month d) + day d.

(** [d.weekday()]: Monday is 0. *)
Definition weekday (d : date) : Z := (toordinal d + 6) mod 7.

(** [d.strftime("%a")] *)
Definition strftime_a (d : date) : string :=
  nth (Z.to_nat (weekday d)) ["Mon"; "Tue"; "Wed"; "Thu"; "Fri"; "Sat"; "Sun"] "".

(** [d.strftime("%A")] *)
Definition strftime_A (d : date) : string :=
  nth (Z.to_nat (weekday d))
    ["Monday"; "Tuesday"; "Wednesday"; "Thursday"; "Friday"; "Saturday"; "Sunday"] "".

Definition two_digits (n : Z) : string :=
  string_of_nat (Z.to_N (n / 10 mod 10)) ++ string_of_nat (Z.to_N (n mod 10)).

(** [dt.strftime("%I:%M %p")] *)
Definition strftime_IMp (dt : datetime) : string :=
  let h := hour dt mod 12 in
  two_digits (if h =? 0 then 12 else h) ++ ":" ++ two_digits (minute dt)
  ++ " " ++ (if hour dt <? 12 then "AM" else "PM").

(** ** Library functions

    The parsers and the printer of the language runtime that the slots call
    on the text inside a reply.  The development is parametric in them. *)

Class Library := {
  (** [datetime.fromisoformat(s)]; [None] when it raises [ValueError] *)
  fromisoformat : string -> option datetime;
  (** [float(s)] on a [str]; [None] when it raises [ValueError] *)
  float_of_str : string -> option float;
  (** [int(s)] on a [str]; [None] when it raises [ValueError] *)
  int_of_str : string -> option Z;
  (** [str(x)] on a value that is not a [str] *)
  str_of_value : json -> string
}.

Section Conversions.
Context `{Library}.

(** [float(x)] *)
Definition py_float (x : json) : result float :=
  match x with
  | JFloat f => Ok f
  | JInt n => float_of_int n
  | JBool b => Ok (if b then fone else fzero)
  | JStr s => match float_of_str s with Some f => Ok f | None => Raise ValueError end
  | _ => Raise TypeError
  end.

(** [int(x)] *)
Definition py_int (x : json) : result Z :=
  match x with
  | JInt n => Ok n
  | JBool b => Ok (if b then 1 else 0)
  | JFloat f => int_of_float f
  | JStr s => match int_of_str s with Some n => Ok n | None => Raise ValueError end
  | _ => Raise TypeError
  end.

(** [format(x, ".0f")], the conversion inside [f"{x:.0f}"] *)
Definition py_format_0f (x : json) : result string :=
  match x with
  | JFloat f => Ok (format_0f f)
  | JInt n => f <- float_of_int n ;; Ok (format_0f f)
  | JBool b => Ok (if b then "1" else "0")
  | JStr _ => Raise ValueError
  | _ => Raise TypeError
  end.

(** [str(x)], the conversion inside [f"{x}"] *)
Definition py_str (x : json) : string :=
  match x with
  | JStr s => s
  | _ => str_of_value x
  end.

(** [datetime.fromisoformat(x)] on any value *)
Definition py_fromisoformat (x : json) : result datetime :=
  match x with
  | JStr s => match fromisoformat s with Some dt => Ok dt | None => Raise ValueError end
  | _ => Raise TypeError
  end.
End Conversions.

(** ** Weather codes *)

Definition _condition_from_code (code : Z) : string :=
  if code =? 0 then "clear"
  else if (code =? 1) || (code =? 2) || (code =? 3) then "clouds"
  else if (code =? 45) || (code =? 48) then "fog"
  else if (51 <=? code) && (code <=? 67) then (if code <? 61 then "drizzle" else "rain")
  else if (71 <=? code) && (code <=? 77) then "snow"
  else if (80 <=? code) && (code <=? 82) then "showers"
  else if (95 <=? code) && (code <=? 99) then "storm"
  else "default".

Definition _emoji_from_code (code : Z) : string :=
  if code =? 0 then "‚òÄÔ∏è"
  else if (code =? 1) || (code =? 2) || (code =? 3) then "‚õÖÔ∏è"
  else if (code =? 45) || (code =? 48) then "üå´Ô∏è"
  else if (51 <=? code) && (code <=? 67) then (if code <? 61 then "üå¶Ô∏è" else "üåßÔ∏è")
  else if (71 <=? code) && (code <=? 77) then "üå®Ô∏è"
  else if (80 <=? code) && (code <=? 82) then "üåßÔ∏è"
  else if (95 <=? code) && (code <=? 99) then "‚õàÔ∏è"
  else "üå§Ô∏è".

(** The table of the specification, bucket by bucket. *)
Inductive condition :=
| clear | clouds | fog | drizzle | rain | snow | showers | storm | default.

Definition condition_name (c : condition) : string :=
  match c with
  | clear => "clear" | clouds => "clouds" | fog => "fog" | drizzle => "drizzle"
  | rain => "rain" | snow => "snow" | showers => "showers" | storm => "storm"
  | default => "default"
  end.

Definition in_range (lo hi code : Z) : bool := (lo <=? code) && (code <=? hi).

Definition classify_table (code : Z) : condition :=
  if code =? 0 then clear
  else if in_range 1 3 code then clouds
  else if (code =? 45) || (code =? 48) then fog
  else if in_range 51 60 code then drizzle
  else if in_range 61 67 code then rain
  else if in_range 71 77 code then snow
  else if in_range 80 82 code then showers
  else if in_range 95 99 code then storm
  else default.

(** ** The application state *)

Record hourly_row := {
  row_time : string; row_temp : float; row_precip : float; row_wind : float
}.

Record daily_row := {
  daily_date : string; daily_max : float; daily_min : float; daily_code : Z
}.

(** The three labels of a card of the 5-day strip. *)
Record card := { card_day : string; card_icon : string; card_temps : string }.

Record request := { req_url : string; req_kind : string }.

Inductive box := Information | Warning.
Record dialog := { dlg_box : box; dlg_title : string; dlg_text : string }.

Record app := {
  city_edit : string;  (* text of the city line edit *)
  unit_box : string;  (* current text of the unit combo box *)
  fav_box : list string;  (* items of the favorites combo box *)
  fav_box_text : string;  (* current text of the favorites combo box *)
  fetch_btn : bool;  (* whether the Fetch button is enabled *)
  prefs : dict;  (* the preferences dict *)
  _resolved_place : option string;  (* the attribute, once assigned *)
  header : string;
  subheader : string;
  icon_lbl : string;
  location_label : string;
  model_rows : list hourly_row;  (* rows loaded in the hourly table model *)
  spark_values : list float;  (* the sparkline's [_values] *)
  spark_accent : string;  (* the sparkline's accent colour *)
  daily_strip : list card;  (* cards of the 5-day strip *)
  bg_style : string;  (* background of the hero frame *)
  auto_timer : bool;  (* whether the refresh timer is active *)
  requests : list request;  (* network requests issued, oldest first *)
  dialogs : list dialog;  (* message boxes shown, oldest first *)
  prefs_file : list dict  (* documents handed to [write_text], oldest first *)
}.

Definition set_city_edit (v : string) (a : app) : app :=
  Build_app v (unit_box a) (fav_box a) (fav_box_text a) (fetch_btn a) (prefs
    a) (_resolved_place a) (header a) (subheader a) (icon_lbl a)
    (location_label a) (model_rows a) (spark_values a) (spark_accent a)
    (daily_strip a) (bg_style a) (auto_timer a) (requests a) (dialogs a)
    (prefs_file a).

Definition set_unit_box (v : string) (a : app) : app :=
  Build_app (city_edit a) v (fav_box a) (fav_box_text a) (fetch_btn a) (prefs
    a) (_resolved_place a) (header a) (subheader a) (icon_lbl a)
    (location_label a) (model_rows a) (spark_values a) (spark_accent a)
    (daily_strip a) (bg_style a) (auto_timer a) (requests a) (dialogs a)
    (prefs_file a).

Definition set_fav_box (v : list string) (a : app) : app :=
  Build_app (city_edit a) (unit_box a) v (fav_box_text a) (fetch_btn a) (prefs
    a) (_resolved_place a) (header a) (subheader a) (icon_lbl a)
    (location_label a) (model_rows a) (spark_values a) (spark_accent a)
    (daily_strip a) (bg_style a) (auto_timer a) (requests a) (dialogs a)
    (prefs_file a).

Definition set_fav_box_text (v : string) (a : app) : app :=
  Build_app (city_edit a) (unit_box a) (fav_box a) v (fetch_btn a) (prefs a)
    (_resolved_place a) (header a) (subheader a) (icon_lbl a) (location_label
    a) (model_rows a) (spark_values a) (spark_accent a) (daily_strip a)
    (bg_style a) (auto_timer a) (requests a) (dialogs a) (prefs_file a).

Definition set_fetch_btn (v : bool) (a : app) : app :=
  Build_app (city_edit a) (unit_box a) (fav_box a) (fav_box_text a) v (prefs
    a) (_resolved_place a) (header a) (subheader a) (icon_lbl a)
    (location_label a) (model_rows a) (spark_values a) (spark_accent a)
    (daily_strip a) (bg_style a) (auto_timer a) (requests a) (dialogs a)
    (prefs_file a).

Definition set_prefs (v : dict) (a : app) : app :=
  Build_app (city_edit a) (unit_box a) (fav_box a) (fav_box_text a) (fetch_btn
    a) v (_resolved_place a) (header a) (subheader a) (icon_lbl a)
    (location_label a) (model_rows a) (spark_values a) (spark_accent a)
    (daily_strip a) (bg_style a) (auto_timer a) (requests a) (dialogs a)
    (prefs_file a).

Definition set_resolved_place (v : option string) (a : app) : app :=
  Build_app (city_edit a) (unit_box a) (fav_box a) (fav_box_text a) (fetch_btn
    a) (prefs a) v (header a) (subheader a) (icon_lbl a) (location_label a)
    (model_rows a) (spark_values a) (spark_accent a) (daily_strip a) (bg_style
    a) (auto_timer a) (requests a) (dialogs a) (prefs_file a).

Definition set_header (v : string) (a : app) : app :=
  Build_app (city_edit a) (unit_box a) (fav_box a) (fav_box_text a) (fetch_btn
    a) (prefs a) (_resolved_place a) v (subheader a) (icon_lbl a)
    (location_label a) (model_rows a) (spark_values a) (spark_accent a)
    (daily_strip a) (bg_style a) (auto_timer a) (requests a) (dialogs a)
    (prefs_file a).

Definition set_subheader (v : string) (a : app) : app :=
  Build_app (city_edit a) (unit_box a) (fav_box a) (fav_box_text a) (fetch_btn
    a) (prefs a) (_resolved_place a) (header a) v (icon_lbl a) (location_label
    a) (model_rows a) (spark_values a) (spark_accent a) (daily_strip a)
    (bg_style a) (auto_timer a) (requests a) (dialogs a) (prefs_file a).

Definition set_icon_lbl (v : string) (a : app) : app :=
  Build_app (city_edit a) (unit_box a) (fav_box a) (fav_box_text a) (fetch_btn
    a) (prefs a) (_resolved_place a) (header a) (subheader a) v
    (location_label a) (model_rows a) (spark_values a) (spark_accent a)
    (daily_strip a) (bg_style a) (auto_timer a) (requests a) (dialogs a)
    (prefs_file a).

Definition set_location_label (v : string) (a : app) : app :=
  Build_app (city_edit a) (unit_box a) (fav_box a) (fav_box_text a) (fetch_btn
    a) (prefs a) (_resolved_place a) (header a) (subheader a) (icon_lbl a) v
    (model_rows a) (spark_values a) (spark_accent a) (daily_strip a) (bg_style
    a) (auto_timer a) (requests a) (dialogs a) (prefs_file a).

Definition set_model_rows (v : list hourly_row) (a : app) : app :=
  Build_app (city_edit a) (unit_box a) (fav_box a) (fav_box_text a) (fetch_btn
    a) (prefs a) (_resolved_place a) (header a) (subheader a) (icon_lbl a)
    (location_label a) v (spark_values a) (spark_accent a) (daily_strip a)
    (bg_style a) (auto_timer a) (requests a) (dialogs a) (prefs_file a).

Definition set_spark_values (v : list float) (a : app) : app :=
  Build_app (city_edit a) (unit_box a) (fav_box a) (fav_box_text a) (fetch_btn
    a) (prefs a) (_resolved_place a) (header a) (subheader a) (icon_lbl a)
    (location_label a) (model_rows a) v (spark_accent a) (daily_strip a)
    (bg_style a) (auto_timer a) (requests a) (dialogs a) (prefs_file a).

Definition set_spark_accent (v : string) (a : app) : app :=
  Build_app (city_edit a) (unit_box a) (fav_box a) (fav_box_text a) (fetch_btn
    a) (prefs a) (_resolved_place a) (header a) (subheader a) (icon_lbl a)
    (location_label a) (model_rows a) (spark_values a) v (daily_strip a)
    (bg_style a) (auto_timer a) (requests a) (dialogs a) (prefs_file a).

Definition set_daily_strip (v : list card) (a : app) : app :=
  Build_app (city_edit a) (unit_box a) (fav_box a) (fav_box_text a) (fetch_btn
    a) (prefs a) (_resolved_place a) (header a) (subheader a) (icon_lbl a)
    (location_label a) (model_rows a) (spark_values a) (spark_accent a) v
    (bg_style a) (auto_timer a) (requests a) (dialogs a) (prefs_file a).

Definition set_bg_style (v : string) (a : app) : app :=
  Build_app (city_edit a) (unit_box a) (fav_box a) (fav_box_text a) (fetch_btn
    a) (prefs a) (_resolved_place a) (header a) (subheader a) (icon_lbl a)
    (location_label a) (model_rows a) (spark_values a) (spark_accent a)
    (daily_strip a) v (auto_timer a) (requests a) (dialogs a) (prefs_file a).

Definition set_auto_timer (v : bool) (a : app) : app :=
  Build_app (city_edit a) (unit_box a) (fav_box a) (fav_box_text a) (fetch_btn
    a) (prefs a) (_resolved_place a) (header a) (subheader a) (icon_lbl a)
    (location_label a) (model_rows a) (spark_values a) (spark_accent a)
    (daily_strip a) (bg_style a) v (requests a) (dialogs a) (prefs_file a).

Definition set_requests (v : list request) (a : app) : app :=
  Build_app (city_edit a) (unit_box a) (fav_box a) (fav_box_text a) (fetch_btn
    a) (prefs a) (_resolved_place a) (header a) (subheader a) (icon_lbl a)
    (location_label a) (model_rows a) (spark_values a) (spark_accent a)
    (daily_strip a) (bg_style a) (auto_timer a) v (dialogs a) (prefs_file a).

Definition set_dialogs (v : list dialog) (a : app) : app :=
  Build_app (city_edit a) (unit_box a) (fav_box a) (fav_box_text a) (fetch_btn
    a) (prefs a) (_resolved_place a) (header a) (subheader a) (icon_lbl a)
    (location_label a) (model_rows a) (spark_values a) (spark_accent a)
    (daily_strip a) (bg_style a) (auto_timer a) (requests a) v (prefs_file a).

Definition set_prefs_file (v : list dict) (a : app) : app :=
  Build_app (city_edit a) (unit_box a) (fav_box a) (fav_box_text a) (fetch_btn
    a) (prefs a) (_resolved_place a) (header a) (subheader a) (icon_lbl a)
    (location_label a) (model_rows a) (spark_values a) (spark_accent a)
    (daily_strip a) (bg_style a) (auto_timer a) (requests a) (dialogs a) v.

(** The degree sign and the dash of the labels, as the source file has them. *)
Definition degree : string := "¬∞".
Definition dash : string := "‚Äî".

(** ** Slots: state and exceptions

    A slot maps the state to its outcome and the state it leaves behind. *)

Definition M (A : Type) : Type := app -> result A * app.

Definition ret {A} (a : A) : M A := fun s => (Ok a, s).

Definition bindM {A B} (c : M A) (k : A -> M B) : M B :=
  fun s =>
    match c s with
    | (Ok a, s') => k a s'
    | (Raise e, s') => (Raise e, s')
    end.

Notation "x <~ c ;; k" := (bindM c (fun x => k))
  (at level 100, c at next level, right associativity).
Notation "c >> k" := (bindM c (fun _ => k))
  (at level 100, k at level 200, right associativity).

Definition lift {A} (r : result A) : M A := fun s => (r, s).
Definition gets {A} (f : app -> A) : M A := fun s => (Ok (f s), s).
Definition modify (f : app -> app) : M unit := fun s => (Ok tt, f s).

(** [for x in xs: body(x)] *)
Fixpoint for_each {A} (xs : list A) (body : A -> M unit) : M unit :=
  match xs with
  | [] => ret tt
  | x :: xs' => body x >> for_each xs' body
  end.

Definition message_box (b : box) (ttl txt : string) : M unit :=
  modify (fun a => set_dialogs (dialogs a ++ [Build_dialog b ttl txt]) a).

(** [self.manager.get(QNetworkRequest(QUrl(url)))], tagged with [kind] *)
Definition manager_get (url kind : string) : M unit :=
  modify (fun a => set_requests (requests a ++ [Build_request url kind]) a).

(** [_save_prefs]: the document goes to the file; a failed write is passed over. *)
Definition _save_prefs : M unit :=
  modify (fun a => set_prefs_file (prefs_file a ++ [prefs a]) a).

Definition OPEN_METEO_GEOCODE (name : string) : string :=
  "https://geocoding-api.open-meteo.com/v1/search?name=" ++ name ++ "&count=1".

Definition OPEN_METEO_FORECAST (lat lon tunit wunit : string) : string :=
  "https://api.open-meteo.com/v1/forecast?"
  ++ "latitude=" ++ lat ++ "&longitude=" ++ lon
  ++ "&hourly=temperature_2m,precipitation_probability,windspeed_10m,weathercode"
  ++ "&daily=weathercode,temperature_2m_max,temperature_2m_min,sunrise,sunset,uv_index_max"
  ++ "&current_weather=true&timezone=auto&temperature_unit=" ++ tunit
  ++ "&windspeed_unit=" ++ wunit.

Definition fetch : M unit :=
  name <~ gets (fun a => strip (city_edit a)) ;;
  if String.eqb name "" then
    message_box Information "Missing" "Please enter a city."
  else
    modify (set_fetch_btn false) >>
    modify (fun a =>
      set_prefs (dict_set "unit" (JStr (if endswith (unit_box a) "F" then "F" else "C"))
                   (prefs a)) a) >>
    _save_prefs >>
    manager_get (OPEN_METEO_GEOCODE name) "geocode".

(** [palettes.get(condition, palettes['default'])] in [_apply_theme] *)
Definition palette (condition : string) : string :=
  if String.eqb condition "clear" then
    "qlineargradient(x1:0,y1:0,x2:1,y2:1, stop:0 #87CEFA, stop:1 #FFE69A)"
  else if String.eqb condition "clouds" then
    "qlineargradient(x1:0,y1:0,x2:1,y2:1, stop:0 #c9d6df, stop:1 #f0f3f5)"
  else if String.eqb condition "rain" then
    "qlineargradient(x1:0,y1:0,x2:1,y2:1, stop:0 #5a8bbb, stop:1 #2f4858)"
  else if String.eqb condition "drizzle" then
    "qlineargradient(x1:0,y1:0,x2:1,y2:1, stop:0 #9bbad1, stop:1 #6d8299)"
  else if String.eqb condition "snow" then
    "qlineargradient(x1:0,y1:0,x2:1,y2:1, stop:0 #e6f2ff, stop:1 #cfe0f5)"
  else if String.eqb condition "fog" then
    "qlineargradient(x1:0,y1:0,x2:1,y2:1, stop:0 #d7d7d7, stop:1 #eeeeee)"
  else if String.eqb condition "showers" then
    "qlineargradient(x1:0,y1:0,x2:1,y2:1, stop:0 #7393B3, stop:1 #4b6584)"
  else if String.eqb condition "storm" then
    "qlineargradient(x1:0,y1:0,x2:1,y2:1, stop:0 #2b2d42, stop:1 #4b4e6d)"
  else
    "qlineargradient(x1:0,y1:0,x2:1,y2:1, stop:0 #dde6f1, stop:1 #eef2f7)".

(** [Sparkline.set_theme] *)
Definition set_theme (condition : string) : M unit :=
  modify (set_spark_accent
            (if String.eqb condition "clear" || String.eqb condition "clouds"
             then "#5aa0ff" else "#6ec3ff")).

Definition _apply_theme (condition : string) : M unit :=
  modify (set_bg_style (palette condition)) >>
  set_theme condition.

(** [Sparkline.set_points]: [list(y_values) if y_values else []] *)
Definition set_points (y_values : list float) : M unit :=
  modify (set_spark_values y_values).

(** [HourlyModel.load] *)
Definition model_load (rows : list hourly_row) : M unit :=
  modify (set_model_rows rows).

(** [_fill_daily_strip]: the strip is emptied, then gets one card per row. *)
Definition card_of (d : daily_row) : card :=
  {| card_day := daily_date d;
     card_icon := _emoji_from_code (daily_code d);
     card_temps := format_0f (daily_max d) ++ degree ++ " / "
                   ++ format_0f (daily_min d) ++ degree |}.

Definition _fill_daily_strip (rows_daily : list daily_row) : M unit :=
  modify (set_daily_strip []) >>
  for_each rows_daily
    (fun d => modify (fun a => set_daily_strip (daily_strip a ++ [card_of d]) a)).

(** [c in x] for a string [c] *)
Definition py_contains (c : string) (x : json) : result bool :=
  match x with
  | JList l => Ok (existsb (fun e => eq_str e c) l)
  | JStr s => Ok (match index 0 c s with Some _ => true | None => false end)
  | JDict d => Ok (existsb (fun kv => String.eqb (fst kv) c) d)
  | _ => Raise TypeError
  end.

(** [x.append(c)]: the list after the call *)
Definition py_append (c : string) (x : json) : result json :=
  match x with
  | JList l => Ok (JList (l ++ [JStr c]))
  | _ => Raise AttributeError
  end.

Fixpoint remove_first (c : string) (l : list json) : option (list json) :=
  match l with
  | [] => None
  | e :: l' =>
      if eq_str e c then Some l'
      else match remove_first c l' with
           | Some r => Some (e :: r)
           | None => None
           end
  end.

(** [x.remove(c)]: the list after the call *)
Definition py_remove (c : string) (x : json) : result json :=
  match x with
  | JList l =>
      match remove_first c l with
      | Some r => Ok (JList r)
      | None => Raise ValueError
      end
  | _ => Raise AttributeError
  end.

(** [self.prefs.setdefault("favorites", [])] *)
Definition setdefault_favorites : M json :=
  fun a =>
    let '(favs, d) := dict_setdefault "favorites" (JList []) (prefs a) in
    (Ok favs, set_prefs d a).

(** [self.prefs.get("favorites", [])] *)
Definition favorites (a : app) : json := dict_get_or "favorites" (JList []) (prefs a).

(** [self.fav_box.addItem(c)]: the item has to be a [str]. *)
Definition addItem (c : json) : M unit :=
  s <~ lift (as_str c) ;;
  modify (fun a => set_fav_box (fav_box a ++ [s]) a).

(** The combo box is refilled with its signals blocked, so no selection
    slot runs.  [clear()] leaves the box without a current item, and a box
    with a placeholder text (the one [__init__] sets) does not make an item
    current when it is added: [currentText()] is empty from [clear()] on. *)
Definition _refresh_favorites : M unit :=
  modify (fun a => set_fav_box_text "" (set_fav_box [] a)) >>
  favs <~ gets favorites ;;
  items <~ lift (py_iter favs) ;;
  for_each items addItem.

(** In [_fav_add] and [_fav_remove], [favs] is the list object stored in
    [prefs]: a change of [favs] is a change of [prefs["favorites"]]. *)
Definition _fav_add : M unit :=
  c <~ gets (fun a => strip (city_edit a)) ;;
  if String.eqb c "" then ret tt
  else
    favs <~ setdefault_favorites ;;
    found <~ lift (py_contains c favs) ;;
    if negb found then
      favs' <~ lift (py_append c favs) ;;
      modify (fun a => set_prefs (dict_set "favorites" favs' (prefs a)) a) >>
      _save_prefs >>
      _refresh_favorites
    else ret tt.

Definition _fav_remove : M unit :=
  c <~ gets (fun a => strip (fav_box_text a)) ;;
  if String.eqb c "" then ret tt
  else
    favs <~ setdefault_favorites ;;
    found <~ lift (py_contains c favs) ;;
    if found then
      favs' <~ lift (py_remove c favs) ;;
      modify (fun a => set_prefs (dict_set "favorites" favs' (prefs a)) a) >>
      _save_prefs >>
      _refresh_favorites
    else ret tt.

Definition _fav_selected (name : string) : M unit :=
  if String.eqb name "" then ret tt
  else modify (set_city_edit name) >> fetch.

Record reply := {
  reply_kind : string;          (* the "kind" property set when the request was issued *)
  reply_body : option json      (* the body through [json.loads]; [None] when that raises *)
}.

Section Pipeline.
Context `{Library}.

Definition _handle_geocode (payload : json) : M unit :=
  r <~ lift (py_get payload "results" JNull) ;;
  let results := py_or r (JList []) in
  if negb (truthy results) then
    message_box Warning "Not found" "City not found." >>
    modify (set_fetch_btn true)
  else
    r0 <~ lift (py_index results 0) ;;
    lat <~ lift (py_item r0 "latitude") ;;
    lon <~ lift (py_item r0 "longitude") ;;
    name <~ lift (py_get r0 "name" JNull) ;;
    admin1 <~ lift (py_get r0 "admin1" JNull) ;;
    country <~ lift (py_get r0 "country" JNull) ;;
    place <~ lift (py_join ", " (List.filter truthy [name; admin1; country])) ;;
    modify (set_resolved_place (Some place)) >>
    unit <~ gets (fun a => dict_get_or "unit" JNull (prefs a)) ;;
    let tunit := if eq_str unit "F" then "fahrenheit" else "celsius" in
    let wunit := if String.eqb tunit "fahrenheit" then "mph" else "kmh" in
    manager_get (OPEN_METEO_FORECAST (py_str lat) (py_str lon) tunit wunit) "forecast".

(** [float(xs[i]) if i < len(xs) else 0.0] *)
Definition float_at (xs : json) (i : nat) : result float :=
  n <- py_len xs ;;
  if (i <? n)%nat then v <- py_index xs i ;; py_float v else Ok fzero.

(** [float(xs[i] or 0.0) if i < len(xs) else 0.0] *)
Definition float_or_zero_at (xs : json) (i : nat) : result float :=
  n <- py_len xs ;;
  if (i <? n)%nat then v <- py_index xs i ;; py_float (py_or v (JFloat fzero))
  else Ok fzero.

(** [int(xs[i]) if i < len(xs) else 0] *)
Definition int_at (xs : json) (i : nat) : result Z :=
  n <- py_len xs ;;
  if (i <? n)%nat then v <- py_index xs i ;; py_int v else Ok 0.

Section Hourly.
Variable today : date.
Variables temps precs winds : json.

(** The dict appended to [rows] for a kept entry. *)
Definition hourly_row_at (i : nat) (dt : datetime) : result hourly_row :=
  t <- float_at temps i ;;
  p <- float_or_zero_at precs i ;;
  w <- float_at winds i ;;
  Ok {| row_time := lstrip_zero (strftime_IMp dt);
        row_temp := t; row_precip := p; row_wind := w |}.

(** [if i < len(temps): spark_vals.append(float(temps[i]))] *)
Definition spark_append (i : nat) (spark_vals : list float) : result (list float) :=
  n <- py_len temps ;;
  if (i <? n)%nat then
    v <- py_index temps i ;; f <- py_float v ;; Ok (spark_vals ++ [f])%list
  else Ok spark_vals.

(** The loop [for i, t in enumerate(times)], from index [i] on, with the
    [rows] and [spark_vals] built so far. *)
Fixpoint hourly_loop (i : nat) (ts : list json)
    (rows : list hourly_row) (spark_vals : list float)
    : result (list hourly_row * list float) :=
  match ts with
  | [] => Ok (rows, spark_vals)
  | t :: ts' =>
      match py_fromisoformat t with
      | Raise _ => hourly_loop (S i) ts' rows spark_vals
      | Ok dt =>
          if negb (date_eqb (dt_date dt) today) then
            hourly_loop (S i) ts' rows spark_vals
          else
            r <- hourly_row_at i dt ;;
            sv <- spark_append i spark_vals ;;
            hourly_loop (S i) ts' (rows ++ [r])%list sv
      end
  end.
End Hourly.

(** The argument of [set_points]:
    [[r["temp"] for r in rows] if rows else spark_vals] *)
Definition trend_series (rows : list hourly_row) (spark_vals : list float) : list float :=
  match rows with
  | [] => spark_vals
  | _ => map row_temp rows
  end.

(** The hourly part of [_handle_forecast]: the rows for the table and the
    points for the sparkline. *)
Definition hourly_part (today : date) (hourly : json)
    : result (list hourly_row * list float) :=
  times <- py_get hourly "time" (JList []) ;;
  temps <- py_get hourly "temperature_2m" (JList []) ;;
  precs <- py_get hourly "precipitation_probability" (JList []) ;;
  winds <- py_get hourly "windspeed_10m" (JList []) ;;
  ts <- py_iter times ;;
  rs <- hourly_loop today temps precs winds 0 ts [] [] ;;
  Ok (fst rs, trend_series (fst rs) (snd rs)).

(** The dict appended to [rows_daily] at index [i]. *)
Definition daily_row_at (d_dates d_max d_min d_code : json) (i : nat)
    : result daily_row :=
  x <- py_index d_dates i ;;
  dt <- py_fromisoformat x ;;
  mx <- float_at d_max i ;;
  mn <- float_at d_min i ;;
  cd <- int_at d_code i ;;
  Ok {| daily_date := strftime_a (dt_date dt);
        daily_max := mx; daily_min := mn; daily_code := cd |}.

(** The daily part of [_handle_forecast]: [rows_daily]. *)
Definition daily_part (daily : json) : result (list daily_row) :=
  d_dates <- py_get daily "time" (JList []) ;;
  d_max <- py_get daily "temperature_2m_max" (JList []) ;;
  d_min <- py_get daily "temperature_2m_min" (JList []) ;;
  d_code <- py_get daily "weathercode" (JList []) ;;
  n <- py_len d_dates ;;
  mapR (daily_row_at d_dates d_max d_min d_code) (seq 0 (Nat.min 5 n)).

Definition resolved_place_attr : M string :=
  fun a =>
    match _resolved_place a with
    | Some p => (Ok p, a)
    | None => (Raise AttributeError, a)
    end.

(** [today] is the value of [date.today()] while the slot runs, for the
    weekday of the subheader and for the date test of the hourly loop. *)
Definition _handle_forecast (today : date) (payload : json) : M unit :=
  c <~ lift (py_get payload "current_weather" JNull) ;;
  h <~ lift (py_get payload "hourly" JNull) ;;
  d <~ lift (py_get payload "daily" JNull) ;;
  let current := py_or c (JDict []) in
  let hourly := py_or h (JDict []) in
  let daily := py_or d (JDict []) in
  temp <~ lift (py_get current "temperature" (JFloat fzero)) ;;
  wind <~ lift (py_get current "windspeed" (JFloat fzero)) ;;
  wc <~ lift (py_get current "weathercode" (JInt 0)) ;;
  code <~ lift (py_int wc) ;;
  let cond := _condition_from_code code in
  unit_letter <~ gets (fun a => dict_get_or "unit" (JStr "F") (prefs a)) ;;
  temp_txt <~ lift (py_format_0f temp) ;;
  modify (set_header (temp_txt ++ degree ++ py_str unit_letter ++ " " ++ dash
                      ++ " " ++ title cond)) >>
  wind_txt <~ lift (py_format_0f wind) ;;
  modify (set_subheader ("Wind: " ++ wind_txt ++ " "
                         ++ (if eq_str unit_letter "F" then "mph" else "km/h")
                         ++ "  |  " ++ strftime_A today)) >>
  modify (set_icon_lbl (_emoji_from_code code)) >>
  place <~ resolved_place_attr ;;
  modify (set_location_label place) >>
  hp <~ lift (hourly_part today hourly) ;;
  model_load (fst hp) >>
  set_points (snd hp) >>
  rows_daily <~ lift (daily_part daily) ;;
  _fill_daily_strip rows_daily >>
  _apply_theme cond >>
  modify (set_fetch_btn true) >>
  modify (set_auto_timer true) >>
  modify (fun a => set_prefs (dict_set "last_city" (JStr (strip (city_edit a))) (prefs a)) a) >>
  _save_prefs.

Definition _on_reply (today : date) (r : reply) : M unit :=
  let payload := match reply_body r with Some j => j | None => JDict [] end in
  if String.eqb (reply_kind r) "geocode" then _handle_geocode payload
  else if String.eqb (reply_kind r) "forecast" then _handle_forecast today payload
  else ret tt.
End Pipeline.

(** ** A library instance for worked examples

    The library on the texts the two services send: timestamps
    [YYYY-MM-DD] and [YYYY-MM-DDTHH:MM], numerals that are runs of digits
    with an optional sign, and [str] of [None], booleans, ints and
    integer-valued floats below 2^53.  Other texts are rejected by the parsers
    of this instance, and other values print as the empty text: it is used
    only to run the slots on the inputs of the examples below. *)

Definition digit (c : ascii) : option Z :=
  let n := nat_of_ascii c in
  if ((48 <=? n) && (n <=? 57))%nat then Some (Z.of_nat n - 48) else None.

Fixpoint digits_from (acc : Z) (s : string) : option Z :=
  match s with
  | EmptyString => Some acc
  | String c s' =>
      match digit c with
      | Some d => digits_from (10 * acc + d) s'
      | None => None
      end
  end.

Definition digits (s : string) : option Z :=
  match s with
  | EmptyString => None
  | _ => digits_from 0 s
  end.

Definition signed_digits (s : string) : option Z :=
  match s with
  | String "-" s' => option_map Z.opp (digits s')
  | _ => digits s
  end.

Definition days_in_month (y m : Z) : Z :=
  if m =? 2 then (if is_leap y then 29 else 28)
  else if (m =? 4) || (m =? 6) || (m =? 9) || (m =? 11) then 30 else 31.

Definition iso_date (s : string) : option date :=
  if negb (String.length s =? 10)%nat then None
  else if negb (String.eqb (substring 4 1 s) "-" && String.eqb (substring 7 1 s) "-") then None
  else
    match digits (substring 0 4 s), digits (substring 5 2 s), digits (substring 8 2 s) with
    | Some y, Some m, Some d =>
        if (1 <=? y) && (1 <=? m) && (m <=? 12) && (1 <=? d) && (d <=? days_in_month y m)
        then Some {| year := y; month := m; day := d |}
        else None
    | _, _, _ => None
    end.

Definition iso_datetime (s : string) : option datetime :=
  if (String.length s =? 10)%nat then
    option_map (fun d => {| dt_date := d; hour := 0; minute := 0 |}) (iso_date s)
  else if negb (String.length s =? 16)%nat then None
  else if negb (String.eqb (substring 10 1 s) "T" && String.eqb (substring 13 1 s) ":") then None
  else
    match iso_date (substring 0 10 s), digits (substring 11 2 s), digits (substring 14 2 s) with
    | Some d, Some h, Some m =>
        if (h <=? 23) && (m <=? 59)
        then Some {| dt_date := d; hour := h; minute := m |}
        else None
    | _, _, _ => None
    end.

Definition str_of_simple (x : json) : string :=
  match x with
  | JNull => "None"
  | JBool b => if b then "True" else "False"
  | JInt n => string_of_int n
  | JFloat f =>
      match int_of_float f with
      | Ok n =>
          if (Z.abs n <? 2 ^ 53) && (SF2Prim (binary_normalize 53 1024 n 0 false) =? f)%float
          then format_0f f ++ ".0" else ""
      | Raise _ => ""
      end
  | _ => ""
  end.

#[local] Instance open_meteo_lib : Library := {|
  fromisoformat := iso_datetime;
  float_of_str s := option_map (fun n => SF2Prim (binary_normalize 53 1024 n 0 false)) (signed_digits s);
  int_of_str := signed_digits;
  str_of_value := str_of_simple
|}.

Definition initial_app : app :=
  {| city_edit := ""; unit_box := degree ++ "F"; fav_box := []; fav_box_text := "";
     fetch_btn := true;
     prefs := [("favorites", JList []); ("last_city", JStr ""); ("unit", JStr "F")];
     _resolved_place := None; header := dash; subheader := ""; icon_lbl := _emoji_from_code 100;
     location_label := ""; model_rows := []; spark_values := []; spark_accent := "#5aa0ff";
     daily_strip := []; bg_style := palette "default"; auto_timer := false;
     requests := []; dialogs := []; prefs_file := [] |}.

Definition nov3 : date := {| year := 2026; month := 11; day := 3 |}.

Definition fort_myers_geocode : json :=
  JDict [("results", JList [JDict [("latitude", JInt 26); ("longitude", JInt (-81));
     ("name", JStr "Fort Myers"); ("admin1", JStr "Florida"); ("country", JStr "United States")]])].

Definition fort_myers_forecast : json :=
  JDict [("current_weather", JDict [("temperature", JFloat 89); ("windspeed", JFloat 8); ("weathercode", JInt 1)]);
         ("hourly", JDict [("time", JList [JStr "2026-11-02T23:00"; JStr "2026-11-03T13:00"; JStr "bad"; JStr "2026-11-03T14:00"]);
                           ("temperature_2m", JList [JFloat 70; JFloat 88.5; JFloat 1]);
                           ("precipitation_probability", JList [JInt 10; JNull]);
                           ("windspeed_10m", JList [JFloat 3; JFloat 4])]);
         ("daily", JDict [("time", JList [JStr "2026-11-03"; JStr "2026-11-04"; JStr "2026-11-05"; JStr "2026-11-06"; JStr "2026-11-07"; JStr "2026-11-08"]);
                          ("weathercode", JList [JInt 1; JInt 61]);
                          ("temperature_2m_max", JList [JFloat 90]);
                          ("temperature_2m_min", JList [JFloat 70; JFloat 71])])].

(** The run of the specification's scenario, with whole-number coordinates:
    submit, geocode reply, forecast reply, on 3 November 2026. *)
Definition fort_myers_run : result unit * app :=
  let s0 := set_city_edit " Fort Myers " initial_app in
  let s1 := snd (fetch s0) in
  let s2 := snd (_on_reply nov3 {| reply_kind := "geocode"; reply_body := Some fort_myers_geocode |} s1) in
  _on_reply nov3 {| reply_kind := "forecast"; reply_body := Some fort_myers_forecast |} s2.

(** ** The remaining slots and widgets

    The two guarded lambdas of [__init__], the table model behind the hourly
    view and the sparkline. *)

(** [lambda: self.fetch() if self.city_edit.text().strip() else None], the
    slot of the refresh timer's [timeout]. *)
Definition auto_timer_timeout : M unit :=
  name <~ gets (fun a => strip (city_edit a)) ;;
  if String.eqb name "" then ret tt else fetch.

(** The same lambda, connected to [unit_box.currentIndexChanged]. *)
Definition unit_box_currentIndexChanged : M unit :=
  name <~ gets (fun a => strip (city_edit a)) ;;
  if String.eqb name "" then ret tt else fetch.

(** [datetime.strptime(s, "%I:%M %p")], as the pair of its hour and minute.
    The format becomes the pattern
    [(1[0-2]|0[1-9]|[1-9]):([0-5]\d|\d)\s+(am|pm)], matched ignoring case
    against the whole text, the alternatives tried from left to right. *)
Definition is_digit (c : ascii) : bool :=
  let n := nat_of_ascii c in ((48 <=? n) && (n <=? 57))%nat.

Definition digit_val (c : ascii) : Z := Z.of_nat (nat_of_ascii c) - 48.

Definition or_else {A} (x y : option A) : option A :=
  match x with
  | Some _ => x
  | None => y
  end.

(** [(am|pm)] at the end of the text: [false] for am, [true] for pm. *)
Definition match_ampm (s : string) : option bool :=
  match s with
  | String c1 (String c2 EmptyString) =>
      if Ascii.eqb (to_lower c2) "m" then
        if Ascii.eqb (to_lower c1) "a" then Some false
        else if Ascii.eqb (to_lower c1) "p" then Some true
        else None
      else None
  | _ => None
  end.

(** [\s+(am|pm)] *)
Definition match_space_ampm (s : string) : option bool :=
  match chars s with
  | ch :: l => if isspace ch then match_ampm (String.concat "" (lstrip_chars l)) else None
  | [] => None
  end.

(** [([0-5]\d|\d)\s+(am|pm)] *)
Definition match_minute (s : string) : option (Z * bool) :=
  or_else
    match s with
    | String c1 (String c2 s') =>
        if is_digit c1 && (digit_val c1 <=? 5) && is_digit c2 then
          option_map (fun pm => (10 * digit_val c1 + digit_val c2, pm)) (match_space_ampm s')
        else None
    | _ => None
    end
    match s with
    | String c1 s' =>
        if is_digit c1 then option_map (fun pm => (digit_val c1, pm)) (match_space_ampm s')
        else None
    | EmptyString => None
    end.

(** [:] and what follows the hour *)
Definition match_colon_minute (h : Z) (s : string) : option (Z * Z * bool) :=
  match s with
  | String ":" s' => option_map (fun mp => (h, fst mp, snd mp)) (match_minute s')
  | _ => None
  end.

Definition match_hour (s : string) : option (Z * Z * bool) :=
  or_else
    match s with
    | String "1" (String c2 s') =>
        if is_digit c2 && (digit_val c2 <=? 2) then match_colon_minute (10 + digit_val c2) s'
        else None
    | _ => None
    end
    (or_else
       match s with
       | String "0" (String c2 s') =>
           if is_digit c2 && (1 <=? digit_val c2) then match_colon_minute (digit_val c2) s'
           else None
       | _ => None
       end
       match s with
       | String c1 s' =>
           if is_digit c1 && (1 <=? digit_val c1) then match_colon_minute (digit_val c1) s'
           else None
       | EmptyString => None
       end).

Definition strptime_IMp (s : string) : option (Z * Z) :=
  match match_hour s with
  | Some (h, m, pm) =>
      Some ((if pm then (if h =? 12 then 12 else h + 12) else (if h =? 12 then 0 else h)), m)
  | None => None
  end.

Module HourlyModel.

Inductive role := DisplayRole | TextAlignmentRole | BackgroundRole | ToolTipRole | OtherRole.

Inductive orientation := Horizontal | Vertical.

(** A [QModelIndex]: invalid, or a row and a column. *)
Inductive index := Invalid | Valid (row column : nat).

(** The values [data] and [headerData] return. *)
Inductive value :=
| VNone
| VText (s : string)
| VAlignCenter
| VBrush.            (* QBrush(QColor(255, 255, 255, 18)) *)

Definition HEADERS : list string := ["Time"; "Temp"; "Precip%"; "Wind"].

Definition rowCount (rows : list hourly_row) : nat := length rows.

Definition columnCount : nat := 4.

Definition headerData (s : nat) (o : orientation) (r : role) : result value :=
  match r, o with
  | DisplayRole, Horizontal =>
      match nth_error HEADERS s with
      | Some h => Ok (VText h)
      | None => Raise IndexError
      end
  | _, _ => Ok VNone
  end.

Definition newline : string := String (ascii_of_nat 10) EmptyString.

Definition tooltip (r : hourly_row) : string :=
  row_time r ++ newline ++ "Temp " ++ format_0f (row_temp r) ++ degree
  ++ ", Wind " ++ format_0f (row_wind r)
  ++ ", Precip " ++ format_0f (row_precip r) ++ "%".

(** [data(index, role)] on the rows of the model; [now_hour] is
    [datetime.now().hour]. *)
Definition data (rows : list hourly_row) (now_hour : Z) (i : index) (rl : role)
    : result value :=
  match i with
  | Invalid => Ok VNone
  | Valid row c =>
      match nth_error rows row with
      | None => Raise IndexError
      | Some r =>
          match rl with
          | DisplayRole =>
              match c with
              | 0%nat => Ok (VText (row_time r))
              | 1%nat => Ok (VText (format_0f (row_temp r) ++ degree))
              | 2%nat => Ok (VText (format_0f (row_precip r)))
              | 3%nat => Ok (VText (format_0f (row_wind r)))
              | _ => Ok VNone
              end
          | TextAlignmentRole => Ok VAlignCenter
          | BackgroundRole =>
              match strptime_IMp (row_time r) with
              | Some (hr, _) => if hr =? now_hour then Ok VBrush else Ok VNone
              | None => Ok VNone
              end
          | ToolTipRole => Ok (VText (tooltip r))
          | OtherRole => Ok VNone
          end
      end
  end.

End HourlyModel.

Module Sparkline.

(** [float(n)] for the sizes and counts of the widget, which are machine
    integers and so convert exactly. *)
Definition of_int (n : Z) : float := SF2Prim (binary_normalize 53 1024 n 0 false).

(** [min(values)] and [max(values)] on a list with head [x]: the first
    item, replaced by each later item that compares below (above) it. *)
Definition py_min (x : float) (xs : list float) : float :=
  fold_left (fun cur item => if (item <? cur)%float then item else cur) xs x.

Definition py_max (x : float) (xs : list float) : float :=
  fold_left (fun cur item => if (cur <? item)%float then item else cur) xs x.

Definition point : Type := float * float.

(** The loop of [_recompute], from index [i] on. *)
Fixpoint points_from (step y_min dy : float) (h : Z) (i : Z) (values : list float)
    : list point :=
  match values with
  | [] => []
  | y :: ys =>
      let x := (of_int 12 + of_int i * step)%float in
      let yy := (of_int (12 + h) - ((y - y_min) / dy) * of_int h)%float in
      (x, yy) :: points_from step y_min dy h (i + 1) ys
  end.

(** [_recompute]: the points for a widget of the given width and height. *)
Definition _recompute (width height : Z) (values : list float) : list point :=
  match values with
  | [] => []
  | y0 :: ys =>
      let w := Z.max 1 (width - 24) in
      let h := Z.max 1 (height - 24) in
      let y_min := py_min y0 ys in
      let y_max := py_max y0 ys in
      let d := (y_max - y_min)%float in
      let dy := if is_zero d then 1%float else d in
      let step := (of_int w / of_int (Z.max 1 (Z.of_nat (length values) - 1)))%float in
      points_from step y_min dy h 0 values
  end.

Inductive stroke :=
| drawLine (p q : point)
| drawEllipse (c : point) (rx ry : float).

Fixpoint lines (p : point) (ps : list point) : list stroke :=
  match ps with
  | [] => []
  | q :: qs => drawLine p q :: lines q qs
  end.

(** What [paintEvent] draws with the accent pen: the segments between
    consecutive points, then a dot on the last one. *)
Definition paintEvent (pts : list point) : list stroke :=
  match pts with
  | p :: (_ :: _) as ps =>
      (lines p ps ++ [drawEllipse (last ps p) 3.5 3.5])%list
  | _ => []
  end.

(** The sparkline of a state, in a widget of the given size. *)
Definition drawn (width height : Z) (a : app) : list stroke :=
  paintEvent (_recompute width height (spark_values a)).

End Sparkline.

(** ** Reference definitions

    What the properties below are stated with: the entries the hourly loop
    keeps, the trend series as the specification words it, and the message
    boxes and inputs of the worked examples. *)

Definition missing_city : dialog :=
  {| dlg_box := Information; dlg_title := "Missing"; dlg_text := "Please enter a city." |}.

Definition not_found : dialog :=
  {| dlg_box := Warning; dlg_title := "Not found"; dlg_text := "City not found." |}.

(** A run fails when its slot raises or shows a message box. *)
Definition surfaces_failure (before : app) (out : result unit * app) : Prop :=
  raises (fst out) \/ dialogs (snd out) <> dialogs before.

(** Every entry of [xs] goes through the conversion [conv]. *)
Definition list_of {A} (conv : json -> result A) (xs : json) : Prop :=
  exists l, xs = JList l /\ Forall (fun v => exists f, conv v = Ok f) l.

Section Kept.
Context `{Library}.
Variable today : date.

(** [t] parses as a timestamp of the reference date. *)
Definition on_today (t : json) : bool :=
  match py_fromisoformat t with
  | Ok dt => date_eqb (dt_date dt) today
  | Raise _ => false
  end.

(** The entries that pass the two [continue]s, with their positions in the
    [time] array; [i] is the position of the head of [ts]. *)
Fixpoint kept_from (i : nat) (ts : list json) : list (nat * datetime) :=
  match ts with
  | [] => []
  | t :: ts' =>
      match py_fromisoformat t with
      | Ok dt =>
          if date_eqb (dt_date dt) today
          then (i, dt) :: kept_from (S i) ts'
          else kept_from (S i) ts'
      | Raise _ => kept_from (S i) ts'
      end
  end.
End Kept.

Section TrendOfSpec.
Context `{Library}.

(** The fall-back of the specification: the temperatures of all entries
    whose timestamp parses, whatever their date, taken where the index is
    within the temperature array. *)
Fixpoint all_parsed_temperatures (temps : json) (i : nat) (ts : list json)
    : result (list float) :=
  match ts with
  | [] => Ok []
  | t :: ts' =>
      match py_fromisoformat t with
      | Raise _ => all_parsed_temperatures temps (S i) ts'
      | Ok _ =>
          n <- py_len temps ;;
          if (i <? n)%nat then
            v <- py_index temps i ;; f <- py_float v ;;
            rest <- all_parsed_temperatures temps (S i) ts' ;; Ok (f :: rest)
          else all_parsed_temperatures temps (S i) ts'
      end
  end.
End TrendOfSpec.

(** A forecast whose only hourly entry is of another day than 3 November 2026. *)
Definition other_day_forecast : json :=
  JDict [("hourly", JDict [("time", JList [JStr "2020-01-01T00:00"]);
                           ("temperature_2m", JList [JFloat 50])])].

(** The state once the geocode stage of the scenario has set the place. *)
Definition after_geocode : app :=
  set_resolved_place (Some "Fort Myers, Florida, United States")
    (set_city_edit "Fort Myers" initial_app).

Definition two_favorites : app :=
  set_prefs [("favorites", JList [JStr "Tampa"; JStr "Naples"]); ("last_city", JStr "");
             ("unit", JStr "F")]
    (set_city_edit " Naples " (set_fav_box_text "Miami" initial_app)).

(** An hourly block over two days: five timestamps, three temperatures. *)
Definition two_day_hourly : dict :=
  [("time", JList [JStr "2026-11-02T23:00"; JStr "2026-11-03T00:00"; JStr "2026-11-03T01:00";
                   JStr "2026-11-03T02:00"; JStr "2026-11-03T03:00"]);
   ("temperature_2m", JList [JFloat 70; JFloat 71; JFloat 72]);
   ("precipitation_probability", JList [JInt 10; JNull]);
   ("windspeed_10m", JList [JFloat 5])].

(** The forecast of the scenario with [two_day_hourly] as its hourly block. *)
Definition two_day_forecast : dict :=
  [("current_weather", JDict [("temperature", JFloat 89); ("windspeed", JFloat 8);
                              ("weathercode", JInt 1)]);
   ("hourly", JDict two_day_hourly)].

(** A reply whose body is the empty object, after the geocode stage of the
    scenario. *)
Definition empty_forecast_reply : reply :=
  {| reply_kind := "forecast"; reply_body := Some (JDict []) |}.

(** A daily block of seven days, with one maximum, two minima, two codes. *)
Definition week_daily : dict :=
  [("time", JList [JStr "2026-11-03"; JStr "2026-11-04"; JStr "2026-11-05"; JStr "2026-11-06";
                   JStr "2026-11-07"; JStr "2026-11-08"; JStr "2026-11-09"]);
   ("weathercode", JList [JInt 1; JInt 61]);
   ("temperature_2m_max", JList [JFloat 90]);
   ("temperature_2m_min", JList [JFloat 70; JFloat 71])].

(** A daily block whose only date is not an ISO date. *)
Definition tomorrow_daily : dict := [("time", JList [JStr "tomorrow"])].

(** The three ways a run of [_handle_geocode] on the state [s] can end. *)
Inductive geocode_outcome (s : app) : result unit * app -> Prop :=
| geocode_raised (e : exn) :
    geocode_outcome s (Raise e, s)
| geocode_not_found :
    geocode_outcome s (Ok tt, set_fetch_btn true (set_dialogs (dialogs s ++ [not_found]) s))
| geocode_resolved (place url : string) :
    geocode_outcome s
      (Ok tt, set_requests (requests s ++ [Build_request url "forecast"])
                (set_resolved_place (Some place) s)).

(** The text of a part of the place: nothing for a part that is absent,
    null or empty. *)
Definition part_text (p : json) : string :=
  match p with
  | JStr s => s
  | _ => ""
  end.

(** What a run of [_handle_forecast] leaves alone: it issues no request,
    shows no message box and keeps the text of the city field; when it
    raises, the button, the timer, the preferences and their file are as they
    were. *)
Definition forecast_frame (s : app) (out : result unit * app) : Prop :=
  requests (snd out) = requests s
  /\ dialogs (snd out) = dialogs s
  /\ city_edit (snd out) = city_edit s
  /\ fav_box (snd out) = fav_box s
  /\ (raises (fst out) ->
      fetch_btn (snd out) = fetch_btn s
      /\ auto_timer (snd out) = auto_timer s
      /\ prefs (snd out) = prefs s
      /\ prefs_file (snd out) = prefs_file s
      /\ daily_strip (snd out) = daily_strip s).

(** The glyph of each condition. *)
Definition glyph_of (c : condition) : string :=
  match c with
  | clear => _emoji_from_code 0
  | clouds => _emoji_from_code 1
  | fog => _emoji_from_code 45
  | drizzle => _emoji_from_code 51
  | rain => _emoji_from_code 61
  | snow => _emoji_from_code 71
  | showers => _emoji_from_code 80
  | storm => _emoji_from_code 95
  | default => _emoji_from_code 100
  end.

(** The two checks of a time label at the hour [h] and minute [m]: it parses
    back to them, and it starts with a digit that is not 0. *)
Definition label_checks (h m : Z) : bool :=
  let dt := {| dt_date := {| year := 2000; month := 1; day := 1 |}; hour := h; minute := m |} in
  match strptime_IMp (lstrip_zero (strftime_IMp dt)) with
  | Some (h', m') => (h' =? h) && (m' =? m)
  | None => false
  end
  && match lstrip_zero (strftime_IMp dt) with
     | String c _ => is_digit c && negb (Ascii.eqb c "0")
     | EmptyString => false
     end.

(** [b] is [a] except, possibly, for the preferences, their file and the
    favorites box, its items and its current text. *)
Definition only_favorites_changed (a b : app) : Prop :=
  b = set_prefs_file (prefs_file b)
        (set_prefs (prefs b)
           (set_fav_box_text (fav_box_text b) (set_fav_box (fav_box b) a))).

(** Between [a] and [b] either the favorites box and the preferences file
    were left alone, or one document was written, the preferences of [b],
    and the box has no current item. *)
Definition refilled_or_untouched (a b : app) : Prop :=
  (fav_box b = fav_box a /\ fav_box_text b = fav_box_text a
   /\ prefs_file b = prefs_file a)
  \/ (fav_box_text b = "" /\ prefs_file b = (prefs_file a ++ [prefs b])%list).

(** The first result of the geocode reply of the scenario. *)
Definition fort_myers_place : dict :=
  [("latitude", JInt 26); ("longitude", JInt (-81)); ("name", JStr "Fort Myers");
   ("admin1", JStr "Florida"); ("country", JStr "United States")].

(** The scenario's city typed in, with Celsius chosen. *)
Definition celsius_chosen : app :=
  set_unit_box (degree ++ "C") (set_city_edit "Fort Myers" initial_app).

(** Five minutes past one in the afternoon of 3 November 2026. *)
Definition one_pm : datetime := {| dt_date := nov3; hour := 13; minute := 5 |}.

(** White space outside the ASCII range: the no-break space U+00A0 and the
    em space U+2003, and a text made of a space and these two. *)
Definition no_break_space : string := String "194" (String "160" "").
Definition em_space : string := String "226" (String "128" (String "131" "")).
Definition blank_text : string := " " ++ no_break_space ++ em_space.

(** * Properties *)

(** ** Generic facts *)

Lemma set_prefs_same (a : app) : set_prefs (prefs a) a = a.
Proof. destruct a; reflexivity. Qed.

Lemma eq_str_true (x : json) (s : string) : eq_str x s = true <-> x = JStr s.
Proof.
  destruct x; simpl; try (split; [discriminate | discriminate]).
  rewrite String.eqb_eq. split; [intros -> | intros [= ->]]; reflexivity.
Qed.

(** ** Characters and white space *)

Lemma chars_nil (s : string) : chars s = [] -> s = "".
Proof.
  destruct s as [|c s]; [reflexivity |]. cbn [chars].
  destruct (chars s) as [|ch rest]; [discriminate |].
  destruct (starts_with_continuation s); discriminate.
Qed.

Lemma chars_nonempty (s : string) : Forall (fun ch => ch <> "") (chars s).
Proof.
  induction s as [|c s IH]; cbn [chars]; [constructor |].
  destruct (chars s) as [|ch rest].
  - constructor; [discriminate | constructor].
  - inversion IH as [|? ? Hch Hrest]; subst.
    destruct (starts_with_continuation s).
    + constructor; [discriminate | exact Hrest].
    + constructor; [discriminate | exact IH].
Qed.

(** The characters of a string, put together again, are the string. *)
Lemma concat_chars (s : string) : String.concat "" (chars s) = s.
Proof.
  induction s as [|c s IH]; [reflexivity |]. cbn [chars].
  destruct (chars s) as [|ch rest] eqn:Hch.
  - apply chars_nil in Hch. subst s. reflexivity.
  - destruct (starts_with_continuation s).
    + rewrite <- IH. destruct rest; reflexivity.
    + rewrite <- IH. reflexivity.
Qed.

Lemma lstrip_chars_nil (l : list string) :
  lstrip_chars l = [] <-> forallb isspace l = true.
Proof.
  induction l as [|ch l IH]; [split; reflexivity |].
  cbn [lstrip_chars forallb]. destruct (isspace ch); [exact IH |].
  split; discriminate.
Qed.

Lemma lstrip_chars_head (l : list string) (ch : string) (r : list string) :
  lstrip_chars l = ch :: r -> isspace ch = false.
Proof.
  induction l as [|x l IH]; [discriminate |].
  cbn [lstrip_chars]. destruct (isspace x) eqn:Hx; [exact IH |].
  intros [= <- _]. exact Hx.
Qed.

Lemma lstrip_chars_Forall (P : string -> Prop) (l : list string) :
  Forall P l -> Forall P (lstrip_chars l).
Proof.
  induction 1 as [|x l Hx Hl IH]; [constructor |].
  cbn [lstrip_chars]. destruct (isspace x); [exact IH | constructor; assumption].
Qed.

Lemma concat_nonempty (l : list string) :
  Forall (fun ch => ch <> "") l -> String.concat "" l = "" -> l = [].
Proof.
  intros Hl Hc. destruct l as [|x l]; [reflexivity |].
  inversion Hl as [|? ? Hx _]; subst.
  destruct x as [|a x]; [contradiction |].
  destruct l; discriminate Hc.
Qed.

Lemma forallb_rev {A} (f : A -> bool) (l : list A) : forallb f (rev l) = forallb f l.
Proof.
  induction l as [|x l IH]; [reflexivity |].
  cbn [rev forallb]. rewrite forallb_app, IH. simpl. rewrite andb_true_r. apply andb_comm.
Qed.

(** [strip] gives the empty string exactly on the strings of white space
    only, the empty one among them. *)
Lemma strip_blank (s : string) : strip s = "" <-> forallb isspace (chars s) = true.
Proof.
  unfold strip, rstrip_chars. split.
  - intros Hs. apply concat_nonempty in Hs.
    + apply (f_equal (@rev string)) in Hs. rewrite rev_involutive in Hs. cbn [rev] in Hs.
      apply lstrip_chars_nil in Hs. rewrite forallb_rev in Hs.
      destruct (lstrip_chars (chars s)) as [|ch r] eqn:Hl.
      * apply lstrip_chars_nil. exact Hl.
      * apply lstrip_chars_head in Hl. cbn [forallb] in Hs. rewrite Hl in Hs. discriminate.
    + apply Forall_rev, lstrip_chars_Forall, Forall_rev, lstrip_chars_Forall, chars_nonempty.
  - intros Hall. apply lstrip_chars_nil in Hall. rewrite Hall. reflexivity.
Qed.

(** What [strip] does to a name, and that a text of spaces, no-break spaces
    and em spaces is blank. *)
Example strip_samples :
  strip "  Fort Myers " = "Fort Myers"
  /\ strip (no_break_space ++ "Tampa" ++ em_space) = "Tampa"
  /\ strip ("Saint" ++ no_break_space ++ "Paul") = "Saint" ++ no_break_space ++ "Paul"
  /\ strip blank_text = ""
  /\ map code_point (chars blank_text) = [32; 160; 8195]%N.
Proof. repeat split. Qed.

Lemma mapR_Forall2 {A B} (f : A -> result B) (xs : list A) (ys : list B) :
  mapR f xs = Ok ys <-> Forall2 (fun x y => f x = Ok y) xs ys.
Proof.
  revert ys. induction xs as [|x xs IH]; intros ys; simpl.
  - split; [intros [= <-]; constructor | intros Hf; inversion Hf; reflexivity].
  - destruct (f x) as [y|e] eqn:Hx; simpl.
    + destruct (mapR f xs) as [zs|e] eqn:Hxs; simpl.
      * split.
        -- intros [= <-]. constructor; [assumption | apply IH; reflexivity].
        -- intros Hf. inversion Hf as [|? y' ? zs' Hy Hzs]; subst.
           apply IH in Hzs. congruence.
      * split; [discriminate |].
        intros Hf. inversion Hf as [|? y' ? zs' Hy Hzs]; subst.
        apply IH in Hzs. discriminate.
    + split; [discriminate |].
      intros Hf. inversion Hf; subst. congruence.
Qed.

Lemma mapR_length {A B} (f : A -> result B) (xs : list A) (ys : list B) :
  mapR f xs = Ok ys -> length ys = length xs.
Proof.
  intros Hm. apply mapR_Forall2 in Hm.
  induction Hm; simpl; congruence.
Qed.

Lemma mapR_total {A B} (f : A -> result B) (xs : list A) :
  Forall (fun x => exists y, f x = Ok y) xs -> exists ys, mapR f xs = Ok ys.
Proof.
  induction 1 as [|x xs [y Hy] _ [ys Hys]]; simpl.
  - eexists; reflexivity.
  - rewrite Hy, Hys. simpl. eexists; reflexivity.
Qed.

Lemma mapR_raises {A B} (f : A -> result B) (xs : list A) (x : A) :
  In x xs -> raises (f x) -> raises (mapR f xs).
Proof.
  induction xs as [|x' xs IH]; simpl; [intros [] |].
  intros [-> | Hin] Hr.
  - destruct Hr as [e ->]. exists e; reflexivity.
  - destruct (f x') as [y|e]; simpl; [| exists e; reflexivity].
    destruct (IH Hin Hr) as [e ->]. exists e; reflexivity.
Qed.

(** ** The scenario of the specification *)

Example fort_myers_scenario :
  fst fort_myers_run = Ok tt
  /\ location_label (snd fort_myers_run) = "Fort Myers, Florida, United States"
  /\ header (snd fort_myers_run) = "89" ++ degree ++ "F " ++ dash ++ " Clouds"
  /\ map row_time (model_rows (snd fort_myers_run)) = ["1:00 PM"; "2:00 PM"]
  /\ length (daily_strip (snd fort_myers_run)) = 5%nat
  /\ map req_kind (requests (snd fort_myers_run)) = ["geocode"; "forecast"]
  /\ auto_timer (snd fort_myers_run) = true
  /\ dict_get "last_city" (prefs (snd fort_myers_run)) = Some (JStr "Fort Myers").
Proof. repeat split. Qed.

Example no_requests_for_blank_or_unknown :
  requests (snd (fetch (set_city_edit "" initial_app))) = []
  /\ map req_kind
       (requests (snd (_on_reply nov3
                         {| reply_kind := "geocode";
                            reply_body := Some (JDict [("results", JList [])]) |}
                         (snd (fetch (set_city_edit "Atlantis" initial_app))))))
     = ["geocode"].
Proof. split; reflexivity. Qed.

(** ** Weather codes *)

(** C4: [classify] ([_condition_from_code]) is a total function on the
    integers that follows the table of the specification: clear for 0,
    clouds for 1-3, fog for 45 and 48, drizzle for 51-60, rain for 61-67,
    snow for 71-77, showers for 80-82, storm for 95-99, and default for every
    other integer, 100 and -5 among them. *)
Theorem classify_follows_table :
  (forall code : Z, _condition_from_code code = condition_name (classify_table code))
  /\ (forall code : Z,
        code <> 0 -> ~ 1 <= code <= 3 -> code <> 45 -> code <> 48 ->
        ~ 51 <= code <= 67 -> ~ 71 <= code <= 77 -> ~ 80 <= code <= 82 ->
        ~ 95 <= code <= 99 -> _condition_from_code code = "default")
  /\ _condition_from_code 100 = "default"
  /\ _condition_from_code (-5) = "default".
Proof.
  assert (Htab : forall code : Z,
             _condition_from_code code = condition_name (classify_table code)).
  { intros code. unfold _condition_from_code, classify_table, in_range.
    repeat (match goal with
            | |- context [Z.eqb ?a ?b] => destruct (Z.eqb_spec a b)
            | |- context [Z.leb ?a ?b] => destruct (Z.leb_spec a b)
            | |- context [Z.ltb ?a ?b] => destruct (Z.ltb_spec a b)
            end; try lia; simpl); reflexivity. }
  split; [exact Htab |]. split; [| split; reflexivity].
  intros code H0 H1 H45 H48 H51 H71 H80 H95.
  rewrite Htab. unfold classify_table, in_range.
  repeat (match goal with
          | |- context [Z.eqb ?a ?b] => destruct (Z.eqb_spec a b)
          | |- context [Z.leb ?a ?b] => destruct (Z.leb_spec a b)
          end; try lia; simpl); reflexivity.
Qed.

Lemma classify_follows_table_witness : _condition_from_code 1000 = "default".
Proof.
  apply (proj1 (proj2 classify_follows_table) 1000); lia.
Defined.

(** ** Submitting a city *)

(** C8: a city name that is empty after trimming is turned down with the
    "Missing" message box before any request is issued; apart from that
    message the state is what it was: the Fetch button stays enabled, the
    preferences and their file are untouched.  By [strip_blank] these names
    are the empty one and those made of white space only, of the ASCII range
    or not. *)
Theorem fetch_rejects_empty_name (s : app) :
  strip (city_edit s) = "" ->
  fetch s = (Ok tt, set_dialogs (dialogs s ++ [missing_city]) s)
  /\ requests (snd (fetch s)) = requests s
  /\ fetch_btn (snd (fetch s)) = fetch_btn s
  /\ prefs (snd (fetch s)) = prefs s
  /\ prefs_file (snd (fetch s)) = prefs_file s.
Proof.
  intros Hname.
  assert (Hrun : fetch s = (Ok tt, set_dialogs (dialogs s ++ [missing_city]) s)).
  { unfold fetch, bindM, gets. rewrite Hname. reflexivity. }
  rewrite Hrun. repeat split; reflexivity.
Qed.

Lemma fetch_rejects_empty_name_witness :
  strip (city_edit (set_city_edit blank_text initial_app)) = ""
  /\ requests (snd (fetch (set_city_edit blank_text initial_app))) = [].
Proof.
  split; [reflexivity |].
  apply (fetch_rejects_empty_name (set_city_edit blank_text initial_app)).
  reflexivity.
Defined.

(** A name that is not empty after trimming does issue the geocode request. *)
Lemma fetch_issues_geocode (s : app) :
  strip (city_edit s) <> "" ->
  fst (fetch s) = Ok tt
  /\ requests (snd (fetch s))
     = (requests s ++ [Build_request (OPEN_METEO_GEOCODE (strip (city_edit s))) "geocode"])%list
  /\ fetch_btn (snd (fetch s)) = false.
Proof.
  intros Hname. unfold fetch, bindM, gets.
  destruct (String.eqb_spec (strip (city_edit s)) ""); [contradiction |].
  repeat split; reflexivity.
Qed.

(** A city field that holds a no-break space and nothing else is blank: the
    Fetch button answers "Missing" and the "+" button adds no favorite. *)
Example no_break_space_is_blank :
  fetch (set_city_edit no_break_space initial_app)
  = (Ok tt, set_dialogs [missing_city] (set_city_edit no_break_space initial_app))
  /\ _fav_add (set_city_edit no_break_space two_favorites)
     = (Ok tt, set_city_edit no_break_space two_favorites).
Proof. split; vm_compute; reflexivity. Qed.

(** ** The geocode reply *)

Section Geocode.
Context `{Library}.

Lemma _handle_geocode_no_results (d : dict) (s : app) :
  truthy (py_or (dict_get_or "results" JNull d) (JList [])) = false ->
  _handle_geocode (JDict d) s
  = (Ok tt, set_fetch_btn true (set_dialogs (dialogs s ++ [not_found]) s)).
Proof.
  intros Hres. unfold _handle_geocode, bindM, lift. simpl.
  rewrite Hres. reflexivity.
Qed.

(** C7: a geocode reply whose body cannot be parsed, or whose results list
    is empty, ends the run with the "Not found" warning, the Fetch button
    enabled again, and no forecast request issued. *)
Theorem geocode_without_results_is_not_found (today : date) (r : reply) (s : app) :
  reply_kind r = "geocode" ->
  (reply_body r = None
   \/ exists d, reply_body r = Some (JDict d) /\ dict_get "results" d = Some (JList [])) ->
  _on_reply today r s
  = (Ok tt, set_fetch_btn true (set_dialogs (dialogs s ++ [not_found]) s))
  /\ requests (snd (_on_reply today r s)) = requests s.
Proof.
  intros Hkind Hbody.
  assert (Hrun : _on_reply today r s
                 = (Ok tt, set_fetch_btn true (set_dialogs (dialogs s ++ [not_found]) s))).
  { unfold _on_reply. rewrite Hkind. simpl.
    destruct Hbody as [-> | (d & -> & Hres)].
    - apply _handle_geocode_no_results. reflexivity.
    - apply _handle_geocode_no_results.
      unfold dict_get_or. rewrite Hres. reflexivity. }
  rewrite Hrun. split; reflexivity.
Qed.
End Geocode.

Lemma geocode_without_results_is_not_found_witness :
  dialogs (snd (_on_reply nov3
                  {| reply_kind := "geocode";
                     reply_body := Some (JDict [("results", JList [])]) |}
                  initial_app)) = [not_found]
  /\ requests (snd (_on_reply nov3
                      {| reply_kind := "geocode"; reply_body := None |}
                      initial_app)) = [].
Proof.
  split.
  - rewrite (proj1 (geocode_without_results_is_not_found nov3
                {| reply_kind := "geocode";
                   reply_body := Some (JDict [("results", JList [])]) |}
                initial_app eq_refl
                (or_intror (ex_intro _ [("results", JList [])] (conj eq_refl eq_refl))))).
    reflexivity.
  - apply (geocode_without_results_is_not_found nov3
             {| reply_kind := "geocode"; reply_body := None |} initial_app eq_refl
             (or_introl eq_refl)).
Defined.

(** ** Favorites *)

Lemma dict_get_set_same (k : string) (v : json) (d : dict) :
  dict_get k (dict_set k v d) = Some v.
Proof.
  induction d as [|[k' v'] d IH]; simpl.
  - rewrite String.eqb_refl. reflexivity.
  - destruct (String.eqb k k') eqn:Hk; simpl; rewrite Hk; [reflexivity | exact IH].
Qed.

Lemma setdefault_keeps_favorites (d : dict) :
  dict_get_or "favorites" (JList []) (snd (dict_setdefault "favorites" (JList []) d))
  = dict_get_or "favorites" (JList []) d
  /\ fst (dict_setdefault "favorites" (JList []) d) = dict_get_or "favorites" (JList []) d.
Proof.
  unfold dict_setdefault, dict_get_or.
  destruct (dict_get "favorites" d) eqn:Hd; simpl.
  - rewrite Hd. split; reflexivity.
  - rewrite dict_get_set_same. split; reflexivity.
Qed.

Lemma py_contains_list (c : string) (l : list json) :
  py_contains c (JList l) = Ok true <-> In (JStr c) l.
Proof.
  simpl. split.
  - intros [= Hex]. apply existsb_exists in Hex as (x & Hin & Hx).
    apply eq_str_true in Hx. subst x. exact Hin.
  - intros Hin. f_equal. apply existsb_exists. exists (JStr c).
    split; [exact Hin | apply eq_str_true; reflexivity].
Qed.

Lemma py_contains_list_false (c : string) (l : list json) :
  py_contains c (JList l) = Ok false <-> ~ In (JStr c) l.
Proof.
  split.
  - intros Hf Hin. apply py_contains_list in Hin. congruence.
  - intros Hnin. simpl. f_equal. apply not_true_is_false.
    intros Hex. apply Hnin. apply (proj1 (py_contains_list c l)).
    simpl. rewrite Hex. reflexivity.
Qed.

(** C9: adding a name that is already among the favorites changes nothing
    at all, and removing a name that is not among them leaves the favorites as
    they were (same entries, same order): nothing is saved and the combo box
    is not refilled.  Membership is the slot's own test, [c in favs]. *)
Theorem favorites_noop (s : app) :
  (py_contains (strip (city_edit s)) (favorites s) = Ok true ->
   _fav_add s = (Ok tt, s))
  /\ (py_contains (strip (fav_box_text s)) (favorites s) = Ok false ->
      fst (_fav_remove s) = Ok tt
      /\ favorites (snd (_fav_remove s)) = favorites s
      /\ prefs_file (snd (_fav_remove s)) = prefs_file s
      /\ fav_box (snd (_fav_remove s)) = fav_box s).
Proof.
  split.
  - intros Hin. unfold _fav_add, bindM, gets.
    destruct (String.eqb (strip (city_edit s)) ""); [reflexivity |].
    unfold setdefault_favorites, dict_setdefault.
    unfold favorites, dict_get_or in Hin.
    destruct (dict_get "favorites" (prefs s)) as [v|] eqn:Hd.
    + rewrite set_prefs_same. unfold lift. rewrite Hin. reflexivity.
    + simpl in Hin. discriminate.
  - intros Hout. unfold _fav_remove, bindM, gets.
    destruct (String.eqb (strip (fav_box_text s)) ""); [repeat split; reflexivity |].
    unfold setdefault_favorites.
    destruct (setdefault_keeps_favorites (prefs s)) as [Hkeep Hfst].
    destruct (dict_setdefault "favorites" (JList []) (prefs s)) as [favs d] eqn:Hsd.
    simpl in Hkeep, Hfst. unfold lift.
    fold (favorites s) in Hfst. rewrite Hfst, Hout. simpl.
    repeat split; try reflexivity.
    unfold favorites. simpl. exact Hkeep.
Qed.

Lemma favorites_noop_witness :
  _fav_add two_favorites = (Ok tt, two_favorites)
  /\ favorites (snd (_fav_remove two_favorites)) = JList [JStr "Tampa"; JStr "Naples"].
Proof.
  split.
  - apply (proj1 (favorites_noop two_favorites)). reflexivity.
  - apply (proj2 (favorites_noop two_favorites)). reflexivity.
Defined.

(** What the two slots do otherwise: a new name goes to the end of the list,
    a present name loses its first occurrence, and the document is saved. *)
Example fav_add_new :
  let s := snd (_fav_add (set_city_edit "Miami" two_favorites)) in
  favorites s = JList [JStr "Tampa"; JStr "Naples"; JStr "Miami"]
  /\ fav_box s = ["Tampa"; "Naples"; "Miami"]
  /\ length (prefs_file s) = 1%nat.
Proof. repeat split. Qed.

Example fav_remove_present :
  let s := snd (_fav_remove (set_fav_box_text "Tampa" two_favorites)) in
  favorites s = JList [JStr "Naples"]
  /\ fav_box s = ["Naples"]
  /\ length (prefs_file s) = 1%nat.
Proof. repeat split. Qed.

(** *** Idempotence *)

Lemma addItem_run (c : json) (a : app) :
  addItem c a
  = match as_str c with
    | Ok s => (Ok tt, set_fav_box (fav_box a ++ [s]) a)
    | Raise e => (Raise e, a)
    end.
Proof. unfold addItem, bindM, lift, modify. destruct (as_str c); reflexivity. Qed.

Lemma for_each_items_keeps (items : list json) (a : app) :
  prefs (snd (for_each items addItem a)) = prefs a
  /\ city_edit (snd (for_each items addItem a)) = city_edit a
  /\ fav_box_text (snd (for_each items addItem a)) = fav_box_text a.
Proof.
  revert a. induction items as [|c items IH]; intros a; [repeat split |].
  cbn [for_each]. unfold bindM. rewrite addItem_run.
  destruct (as_str c) as [s|e]; [| repeat split].
  destruct (IH (set_fav_box (fav_box a ++ [s]) a)) as (Hp & Hc & Ht).
  rewrite Hp, Hc, Ht. repeat split.
Qed.

Lemma _refresh_favorites_keeps (a : app) :
  prefs (snd (_refresh_favorites a)) = prefs a
  /\ city_edit (snd (_refresh_favorites a)) = city_edit a
  /\ fav_box_text (snd (_refresh_favorites a)) = "".
Proof.
  unfold _refresh_favorites.
  cbv beta iota delta [bindM lift modify gets].
  destruct (py_iter _) as [items|e]; [| repeat split].
  destruct (for_each_items_keeps items (set_fav_box_text "" (set_fav_box [] a)))
    as (Hp & Hc & Ht).
  rewrite Hp, Hc, Ht. repeat split.
Qed.

(** A state in which the name is found, or in which the slot raises before it
    changes the list, is left as it is by [_fav_add]. *)
Lemma _fav_add_fixed (a : app) (favs : json) :
  dict_get "favorites" (prefs a) = Some favs ->
  py_contains (strip (city_edit a)) favs = Ok true
  \/ raises (py_contains (strip (city_edit a)) favs)
  \/ raises (py_append (strip (city_edit a)) favs) ->
  snd (_fav_add a) = a.
Proof.
  intros Hget Hcase. unfold _fav_add, bindM, gets, ret.
  destruct (String.eqb (strip (city_edit a)) ""); [reflexivity |].
  unfold setdefault_favorites, dict_setdefault. rewrite Hget, set_prefs_same.
  unfold lift.
  destruct Hcase as [-> | [[e ->] | [e Happ]]]; [reflexivity | reflexivity |].
  destruct (py_contains (strip (city_edit a)) favs) as [[|]|e']; simpl; try reflexivity.
  rewrite Happ. reflexivity.
Qed.

Lemma py_contains_appended (c : string) (l : list json) :
  py_contains c (JList (l ++ [JStr c])) = Ok true.
Proof.
  apply py_contains_list. apply in_or_app. right. left. reflexivity.
Qed.

(** X16: Adding the same name twice is adding it once. *)
Lemma _fav_add_idempotent (s : app) :
  snd (_fav_add (snd (_fav_add s))) = snd (_fav_add s).
Proof.
  unfold _fav_add at 2 3.
  cbv beta iota delta [bindM gets ret].
  destruct (String.eqb (strip (city_edit s)) "") eqn:Hc.
  - cbn [snd]. unfold _fav_add. cbv beta iota delta [bindM gets ret]. rewrite Hc. reflexivity.
  - unfold setdefault_favorites at 1 2.
    destruct (dict_setdefault "favorites" (JList []) (prefs s)) as [favs d] eqn:Hsd.
    assert (Hget : dict_get "favorites" d = Some favs).
    { unfold dict_setdefault in Hsd.
      destruct (dict_get "favorites" (prefs s)) eqn:Hg; injection Hsd as <- <-.
      - exact Hg.
      - apply dict_get_set_same. }
    cbv beta iota delta [lift].
    destruct (py_contains (strip (city_edit s)) favs) as [[|]|e] eqn:Hin; cbn [negb snd].
    + apply _fav_add_fixed with (favs := favs); [exact Hget | left; exact Hin].
    + destruct (py_append (strip (city_edit s)) favs) as [favs'|e] eqn:Happ; cbn [snd].
      * cbv beta iota delta [modify _save_prefs].
        destruct favs as [| | | | |l|]; try discriminate Happ.
        injection Happ as <-.
        match goal with
        | |- snd (_fav_add (snd (_refresh_favorites ?a))) = _ =>
            destruct (_refresh_favorites_keeps a) as (Hp & Hcity & _);
            apply _fav_add_fixed with (favs := JList (l ++ [JStr (strip (city_edit s))]))
        end.
        -- rewrite Hp. cbn [prefs set_prefs_file set_prefs]. apply dict_get_set_same.
        -- left. rewrite Hcity. cbn [city_edit set_prefs_file set_prefs].
           apply py_contains_appended.
      * apply _fav_add_fixed with (favs := favs);
          [exact Hget | right; right; exists e; exact Happ].
    + apply _fav_add_fixed with (favs := favs);
        [exact Hget | right; left; exists e; exact Hin].
Qed.

Lemma _fav_remove_fixed (a : app) (favs : json) :
  dict_get "favorites" (prefs a) = Some favs ->
  py_contains (strip (fav_box_text a)) favs = Ok false
  \/ raises (py_contains (strip (fav_box_text a)) favs)
  \/ raises (py_remove (strip (fav_box_text a)) favs) ->
  snd (_fav_remove a) = a.
Proof.
  intros Hget Hcase. unfold _fav_remove, bindM, gets, ret.
  destruct (String.eqb (strip (fav_box_text a)) ""); [reflexivity |].
  unfold setdefault_favorites, dict_setdefault. rewrite Hget, set_prefs_same.
  unfold lift.
  destruct Hcase as [-> | [[e ->] | [e Hrem]]]; [reflexivity | reflexivity |].
  destruct (py_contains (strip (fav_box_text a)) favs) as [[|]|e']; simpl; try reflexivity.
  rewrite Hrem. reflexivity.
Qed.

(** With no current item in the box the slot stops at its first test. *)
Lemma _fav_remove_blank (a : app) :
  fav_box_text a = "" -> _fav_remove a = (Ok tt, a).
Proof.
  intros Ht. unfold _fav_remove, bindM, gets, ret. rewrite Ht. reflexivity.
Qed.

(** X17: Removing twice is removing once, whatever the favorites are and
    whether or not a name is repeated among them: a removal refills the combo
    box, which is then without a current item, so that the second run stops
    at its first test; and a run that removes nothing leaves the state to the
    second run as it found it. *)
Lemma _fav_remove_idempotent (s : app) :
  snd (_fav_remove (snd (_fav_remove s))) = snd (_fav_remove s).
Proof.
  unfold _fav_remove at 2 3.
  cbv beta iota delta [bindM gets ret].
  destruct (String.eqb (strip (fav_box_text s)) "") eqn:Hc.
  - cbn [snd]. unfold _fav_remove. cbv beta iota delta [bindM gets ret]. rewrite Hc. reflexivity.
  - unfold setdefault_favorites at 1 2.
    destruct (dict_setdefault "favorites" (JList []) (prefs s)) as [favs d] eqn:Hsd.
    assert (Hget : dict_get "favorites" d = Some favs).
    { unfold dict_setdefault in Hsd.
      destruct (dict_get "favorites" (prefs s)) eqn:Hg; injection Hsd as <- <-.
      - exact Hg.
      - apply dict_get_set_same. }
    cbv beta iota delta [lift].
    destruct (py_contains (strip (fav_box_text s)) favs) as [[|]|e] eqn:Hin; cbn [snd].
    + destruct (py_remove (strip (fav_box_text s)) favs) as [favs'|e] eqn:Hrem; cbn [snd].
      * cbv beta iota delta [modify _save_prefs].
        match goal with
        | |- snd (_fav_remove (snd (_refresh_favorites ?a))) = _ =>
            destruct (_refresh_favorites_keeps a) as (_ & _ & Htext)
        end.
        rewrite (_fav_remove_blank _ Htext). reflexivity.
      * apply _fav_remove_fixed with (favs := favs);
          [exact Hget | right; right; exists e; exact Hrem].
    + apply _fav_remove_fixed with (favs := favs); [exact Hget | left; exact Hin].
    + apply _fav_remove_fixed with (favs := favs);
        [exact Hget | right; left; exists e; exact Hin].
Qed.

(** With a repeated name, as a hand-edited preferences file can have, a
    removal takes the first occurrence; pressing the button again does
    nothing, no item being current after the refill. *)
Example fav_remove_repeated_name :
  let s := set_prefs [("favorites", JList [JStr "Tampa"; JStr "Tampa"])]
             (set_fav_box_text "Tampa" initial_app) in
  favorites (snd (_fav_remove s)) = JList [JStr "Tampa"]
  /\ fav_box_text (snd (_fav_remove s)) = ""
  /\ _fav_remove (snd (_fav_remove s)) = (Ok tt, snd (_fav_remove s)).
Proof. split; [| split]; vm_compute; reflexivity. Qed.

(** ** Running the forecast slot *)

Lemma for_each_cards (rows : list daily_row) (a : app) :
  for_each rows (fun d => modify (fun a => set_daily_strip (daily_strip a ++ [card_of d]) a)) a
  = (Ok tt, set_daily_strip (daily_strip a ++ map card_of rows) a).
Proof.
  revert a. induction rows as [|r rows IH]; intros a; simpl.
  - rewrite app_nil_r. destruct a; reflexivity.
  - unfold bindM, modify at 1. rewrite IH. simpl. rewrite <- app_assoc. reflexivity.
Qed.

Lemma _fill_daily_strip_run (rows : list daily_row) (a : app) :
  _fill_daily_strip rows a = (Ok tt, set_daily_strip (map card_of rows) a).
Proof.
  unfold _fill_daily_strip, bindM, modify at 1. rewrite for_each_cards. reflexivity.
Qed.

Lemma py_or_dict (d : dict) : py_or (JDict d) (JDict []) = JDict d.
Proof. destruct d; reflexivity. Qed.

(** Unfolds the monad of a slot and reads the fields of the states it builds. *)
Ltac run_slot :=
  cbv beta iota zeta delta
    [bindM lift gets modify ret model_load set_points _apply_theme set_theme
     _save_prefs resolved_place_attr message_box manager_get] in *;
  cbn [city_edit unit_box fav_box fav_box_text fetch_btn prefs _resolved_place header
       subheader icon_lbl location_label model_rows spark_values spark_accent daily_strip
       bg_style auto_timer requests dialogs prefs_file
       set_city_edit set_unit_box set_fav_box set_fav_box_text set_fetch_btn set_prefs
       set_resolved_place set_header set_subheader set_icon_lbl set_location_label
       set_model_rows set_spark_values set_spark_accent set_daily_strip set_bg_style
       set_auto_timer set_requests set_dialogs set_prefs_file] in *.

Section ForecastSlot.
Context `{Library}.

(** A run of the slot that completes has gone through both parts, and shows
    their results: the rows in the table, the trend in the sparkline, one
    card per daily row. *)
Lemma _handle_forecast_ok (today : date) (d : dict) (s s' : app) :
  _handle_forecast today (JDict d) s = (Ok tt, s') ->
  exists rows trend rows_daily,
    hourly_part today (py_or (dict_get_or "hourly" JNull d) (JDict [])) = Ok (rows, trend)
    /\ daily_part (py_or (dict_get_or "daily" JNull d) (JDict [])) = Ok rows_daily
    /\ model_rows s' = rows /\ spark_values s' = trend
    /\ daily_strip s' = map card_of rows_daily
    /\ requests s' = requests s /\ dialogs s' = dialogs s
    /\ fetch_btn s' = true /\ auto_timer s' = true.
Proof.
  unfold _handle_forecast. cbn [py_get]. run_slot.
  intros Hrun.
  repeat match type of Hrun with
         | match ?r with Ok _ => _ | Raise _ => _ end = _ =>
             destruct r eqn:?; [| discriminate Hrun]
         end.
  destruct (_resolved_place s) as [place|]; [| discriminate Hrun].
  run_slot.
  repeat match type of Hrun with
         | match ?r with Ok _ => _ | Raise _ => _ end = _ =>
             destruct r eqn:?; [| discriminate Hrun]
         end.
  rewrite _fill_daily_strip_run in Hrun. run_slot.
  injection Hrun as <-.
  match goal with
  | Hh : hourly_part _ _ = Ok ?hp, Hd : daily_part _ = Ok ?rd |- _ =>
      destruct hp as [rows trend]; exists rows, trend, rd
  end.
  repeat split; try reflexivity; assumption.
Qed.

Lemma _on_reply_forecast (today : date) (r : reply) (payload : json) (s : app) :
  reply_kind r = "forecast" ->
  reply_body r = Some payload ->
  _on_reply today r s = _handle_forecast today payload s.
Proof.
  intros Hkind Hbody. unfold _on_reply. rewrite Hkind, Hbody. reflexivity.
Qed.

(** When the daily part raises, the slot raises, and the strip keeps the
    cards it had. *)
Lemma _handle_forecast_daily_raises (today : date) (d : dict) (s : app) :
  raises (daily_part (py_or (dict_get_or "daily" JNull d) (JDict []))) ->
  raises (fst (_handle_forecast today (JDict d) s))
  /\ daily_strip (snd (_handle_forecast today (JDict d) s)) = daily_strip s.
Proof.
  intros [e0 Hd].
  unfold _handle_forecast. cbn [py_get]. run_slot.
  repeat match goal with
         | |- raises (fst (match ?r with Ok _ => _ | Raise _ => _ end)) /\ _ =>
             destruct r eqn:?; [| split; [eexists; reflexivity | reflexivity]]
         end.
  destruct (_resolved_place s) as [place|]; [| split; [eexists; reflexivity | reflexivity]].
  run_slot.
  repeat match goal with
         | |- raises (fst (match ?r with Ok _ => _ | Raise _ => _ end)) /\ _ =>
             destruct r eqn:?; [| split; [eexists; reflexivity | reflexivity]]
         end.
  discriminate Hd.
Qed.
End ForecastSlot.

(** ** The hourly rows *)

Lemma date_eqb_eq (d1 d2 : date) : date_eqb d1 d2 = true <-> d1 = d2.
Proof.
  destruct d1 as [y1 m1 a1], d2 as [y2 m2 a2]. unfold date_eqb. simpl.
  rewrite !andb_true_iff, !Z.eqb_eq.
  split; [intros [[-> ->] ->]; reflexivity | intros [= -> -> ->]; auto].
Qed.

Section HourlyFacts.
Context `{Library}.
Variable today : date.

(** The kept entries are, in order, the timestamps of the array that are on
    the reference date. *)
Lemma kept_from_filter (i : nat) (ts : list json) :
  Forall2 (fun t e => py_fromisoformat t = Ok (snd e) /\ dt_date (snd e) = today)
    (filter (on_today today) ts) (kept_from today i ts).
Proof.
  revert i. induction ts as [|t ts IH]; intros i; simpl; [constructor |].
  unfold on_today at 1.
  destruct (py_fromisoformat t) as [dt|e] eqn:Hp; [| apply IH].
  destruct (date_eqb (dt_date dt) today) eqn:Hd; [| apply IH].
  constructor; [| apply IH].
  simpl. split; [exact Hp | apply date_eqb_eq; exact Hd].
Qed.

Lemma kept_from_positions (i : nat) (ts : list json) :
  Forall (fun e => (i <= fst e < i + length ts)%nat
                   /\ exists t, nth_error ts (fst e - i) = Some t
                                /\ py_fromisoformat t = Ok (snd e)) (kept_from today i ts).
Proof.
  revert i. induction ts as [|t ts IH]; intros i; simpl; [constructor |].
  assert (Hrest : Forall (fun e => (i <= fst e < i + S (length ts))%nat
                   /\ exists t0, nth_error (t :: ts) (fst e - i) = Some t0
                                 /\ py_fromisoformat t0 = Ok (snd e))
                    (kept_from today (S i) ts)).
  { eapply Forall_impl; [| apply IH]. simpl.
    intros e [Hr (t0 & Hn & Hp)]. split; [lia |].
    exists t0. split; [| exact Hp].
    replace (fst e - i)%nat with (S (fst e - S i)) by lia. exact Hn. }
  destruct (py_fromisoformat t) as [dt|e] eqn:Hp; [| exact Hrest].
  destruct (date_eqb (dt_date dt) today); [| exact Hrest].
  constructor; [| exact Hrest].
  simpl. split; [lia |]. exists t. rewrite Nat.sub_diag. split; [reflexivity | exact Hp].
Qed.

Section Loop.
Variables temps precs winds : json.

Lemma spark_append_after_row (i : nat) (dt : datetime) (r : hourly_row) (sv : list float) :
  hourly_row_at temps precs winds i dt = Ok r ->
  exists n, py_len temps = Ok n
            /\ spark_append temps i sv
               = Ok (if (i <? n)%nat then sv ++ [row_temp r] else sv)%list.
Proof.
  unfold hourly_row_at. intros Hrow.
  destruct (float_at temps i) as [t|e] eqn:Ht; simpl in Hrow; [| discriminate].
  destruct (float_or_zero_at precs i) as [p|e]; simpl in Hrow; [| discriminate].
  destruct (float_at winds i) as [w|e]; simpl in Hrow; [| discriminate].
  injection Hrow as <-. simpl.
  unfold float_at in Ht. unfold spark_append.
  destruct (py_len temps) as [n|e]; simpl in *; [| discriminate].
  exists n. split; [reflexivity |].
  destruct (i <? n)%nat; [| reflexivity].
  destruct (py_index temps i) as [v|e]; simpl in *; [| discriminate].
  rewrite Ht. reflexivity.
Qed.

(** What a completed run of the loop has built: one row per kept entry,
    in order, after the rows it started from; and nothing is added to
    [spark_vals] when no row is added. *)
Lemma hourly_loop_ok (ts : list json) :
  forall i rows sv rows' sv',
    hourly_loop today temps precs winds i ts rows sv = Ok (rows', sv') ->
    exists rs,
      Forall2 (fun e r => hourly_row_at temps precs winds (fst e) (snd e) = Ok r)
        (kept_from today i ts) rs
      /\ rows' = (rows ++ rs)%list
      /\ (rs = [] -> sv' = sv)
      /\ exists vs, sv' = (sv ++ vs)%list.
Proof.
  induction ts as [|t ts IH]; intros i rows sv rows' sv'; simpl.
  - intros [= <- <-]. exists []. rewrite !app_nil_r.
    repeat split; [constructor | exists []; rewrite app_nil_r; reflexivity].
  - destruct (py_fromisoformat t) as [dt|e] eqn:Hp; [| apply IH].
    destruct (date_eqb (dt_date dt) today); simpl; [| apply IH].
    destruct (hourly_row_at temps precs winds i dt) as [r|e] eqn:Hrow; simpl;
      [| discriminate].
    destruct (spark_append_after_row i dt r sv Hrow) as (n & _ & ->). simpl.
    intros Hloop. apply IH in Hloop as (rs & Hrs & -> & _ & (vs & ->)).
    exists (r :: rs). rewrite <- app_assoc. simpl.
    repeat split; [constructor; assumption | discriminate |].
    destruct (i <? n)%nat; [rewrite <- app_assoc |]; eexists; reflexivity.
Qed.

Lemma entry_converts {A} (conv : json -> result A) (xs : json) (i : nat) :
  list_of conv xs ->
  exists n, py_len xs = Ok n /\
            ((i <? n)%nat = false
             \/ (i <? n)%nat = true
                /\ exists v f, py_index xs i = Ok v /\ conv v = Ok f).
Proof.
  intros (l & -> & Hl). exists (length l). split; [reflexivity |].
  destruct (i <? length l)%nat eqn:Hi; [right; split; [reflexivity |] | left; reflexivity].
  apply Nat.ltb_lt in Hi.
  destruct (nth_error l i) as [v|] eqn:Hv.
  - rewrite Forall_forall in Hl.
    destruct (Hl v (nth_error_In _ _ Hv)) as [f Hf].
    exists v, f. simpl. rewrite Hv. split; [reflexivity | exact Hf].
  - apply nth_error_None in Hv. lia.
Qed.

Lemma float_at_total (xs : json) (i : nat) :
  list_of py_float xs -> exists f, float_at xs i = Ok f.
Proof.
  intros Hxs. unfold float_at.
  destruct (entry_converts _ xs i Hxs) as (n & Hn & Hi).
  rewrite Hn. simpl.
  destruct Hi as [-> | (-> & v & f & Hv & Hf)]; [eexists; reflexivity |].
  rewrite Hv. simpl. rewrite Hf. eexists; reflexivity.
Qed.

Lemma float_or_zero_at_total (xs : json) (i : nat) :
  list_of (fun v => py_float (py_or v (JFloat fzero))) xs ->
  exists f, float_or_zero_at xs i = Ok f.
Proof.
  intros Hxs. unfold float_or_zero_at.
  destruct (entry_converts _ xs i Hxs) as (n & Hn & Hi).
  rewrite Hn. simpl.
  destruct Hi as [-> | (-> & v & f & Hv & Hf)]; [eexists; reflexivity |].
  rewrite Hv. simpl. rewrite Hf. eexists; reflexivity.
Qed.

Lemma hourly_row_at_total (i : nat) (dt : datetime) :
  list_of py_float temps ->
  list_of (fun v => py_float (py_or v (JFloat fzero))) precs ->
  list_of py_float winds ->
  exists r, hourly_row_at temps precs winds i dt = Ok r.
Proof.
  intros Ht Hp Hw. unfold hourly_row_at.
  destruct (float_at_total temps i Ht) as [t ->].
  destruct (float_or_zero_at_total precs i Hp) as [p ->].
  destruct (float_at_total winds i Hw) as [w ->].
  simpl. eexists; reflexivity.
Qed.

(** On arrays whose entries convert, the loop runs to its end. *)
Lemma hourly_loop_total (ts : list json) :
  list_of py_float temps ->
  list_of (fun v => py_float (py_or v (JFloat fzero))) precs ->
  list_of py_float winds ->
  forall i rows sv,
    exists rows' sv', hourly_loop today temps precs winds i ts rows sv = Ok (rows', sv').
Proof.
  intros Ht Hp Hw.
  induction ts as [|t ts IH]; intros i rows sv; simpl.
  - eexists _, _; reflexivity.
  - destruct (py_fromisoformat t) as [dt|e]; [| apply IH].
    destruct (date_eqb (dt_date dt) today); simpl; [| apply IH].
    destruct (hourly_row_at_total i dt Ht Hp Hw) as [r Hr].
    rewrite Hr. simpl.
    destruct (spark_append_after_row i dt r sv Hr) as (n & _ & ->). simpl.
    apply IH.
Qed.
End Loop.
End HourlyFacts.

Lemma Forall2_chain {A B C} (P : A -> B -> Prop) (Q : B -> C -> Prop) (R : A -> C -> Prop)
    (xs : list A) (ys : list B) (zs : list C) :
  (forall x y z, P x y -> Q y z -> R x z) ->
  Forall2 P xs ys -> Forall2 Q ys zs -> Forall2 R xs zs.
Proof.
  intros HR HP. revert zs.
  induction HP as [|x y xs ys Hxy _ IH]; intros zs HQ; inversion HQ; subst; constructor.
  - eapply HR; eassumption.
  - apply IH. assumption.
Qed.

Section HourlyPart.
Context `{Library}.
Variable today : date.

Lemma row_time_of (temps precs winds : json) (i : nat) (dt : datetime) (r : hourly_row) :
  hourly_row_at temps precs winds i dt = Ok r ->
  row_time r = lstrip_zero (strftime_IMp dt).
Proof.
  unfold hourly_row_at.
  destruct (float_at temps i); simpl; [| discriminate].
  destruct (float_or_zero_at precs i); simpl; [| discriminate].
  destruct (float_at winds i); simpl; [| discriminate].
  intros [= <-]. reflexivity.
Qed.

(** The loop behind a completed [hourly_part]. *)
Lemma hourly_part_ok (d : dict) (ts : list json) (rows : list hourly_row)
    (trend : list float) :
  dict_get_or "time" (JList []) d = JList ts ->
  hourly_part today (JDict d) = Ok (rows, trend) ->
  exists sv,
    hourly_loop today (dict_get_or "temperature_2m" (JList []) d)
      (dict_get_or "precipitation_probability" (JList []) d)
      (dict_get_or "windspeed_10m" (JList []) d) 0 ts [] [] = Ok (rows, sv)
    /\ trend = trend_series rows sv.
Proof.
  intros Hts. unfold hourly_part. simpl. rewrite Hts. simpl.
  destruct (hourly_loop _ _ _ _ _ _ _ _) as [[rows' sv]|e]; simpl; [| discriminate].
  intros [= <- <-]. exists sv. split; reflexivity.
Qed.

(** The table and the sparkline after a completed run on a payload whose
    hourly block is the dict [d]. *)
Lemma hourly_of_run (d0 d : dict) (s s' : app) :
  dict_get "hourly" d0 = Some (JDict d) ->
  _handle_forecast today (JDict d0) s = (Ok tt, s') ->
  hourly_part today (JDict d) = Ok (model_rows s', spark_values s').
Proof.
  intros Hd0 Hrun.
  apply _handle_forecast_ok in Hrun
    as (rows & trend & rd & Hh & _ & <- & <- & _).
  unfold dict_get_or in Hh. rewrite Hd0, py_or_dict in Hh. exact Hh.
Qed.

(** C3: after a run of the forecast slot, the rows of the hourly table
    are, one for one and in the order of the [time] array, the timestamps of
    that array whose date is the reference date: as many rows as there are
    such timestamps, each row showing the time of its timestamp, none from
    another date.  (A timestamp that does not parse is passed over, so this
    holds whether or not all of them parse.)  The hourly part does produce
    its rows whenever the entries of the three value arrays convert to
    float. *)
Theorem hourly_rows_are_those_of_today (d0 d : dict) (ts : list json) :
  dict_get "hourly" d0 = Some (JDict d) ->
  dict_get_or "time" (JList []) d = JList ts ->
  (forall s s',
      _handle_forecast today (JDict d0) s = (Ok tt, s') ->
      length (model_rows s') = length (filter (on_today today) ts)
      /\ Forall2 (fun t r => exists dt,
                      py_fromisoformat t = Ok dt /\ dt_date dt = today
                      /\ row_time r = lstrip_zero (strftime_IMp dt))
           (filter (on_today today) ts) (model_rows s'))
  /\ (list_of py_float (dict_get_or "temperature_2m" (JList []) d) ->
      list_of (fun v => py_float (py_or v (JFloat fzero)))
        (dict_get_or "precipitation_probability" (JList []) d) ->
      list_of py_float (dict_get_or "windspeed_10m" (JList []) d) ->
      exists rows trend,
        hourly_part today (JDict d) = Ok (rows, trend)
        /\ length rows = length (filter (on_today today) ts)).
Proof.
  intros Hd0 Hts.
  assert (Hrows : forall rows trend,
             hourly_part today (JDict d) = Ok (rows, trend) ->
             Forall2 (fun t r => exists dt,
                          py_fromisoformat t = Ok dt /\ dt_date dt = today
                          /\ row_time r = lstrip_zero (strftime_IMp dt))
               (filter (on_today today) ts) rows).
  { intros rows trend Hpart.
    destruct (hourly_part_ok d ts rows trend Hts Hpart) as (sv & Hloop & _).
    apply hourly_loop_ok in Hloop as (rs & Hrs & Hrows & _).
    simpl in Hrows. subst rs.
    eapply Forall2_chain; [| apply (kept_from_filter today 0 ts) | exact Hrs].
    intros t e r [Hp Hd] Hrow. exists (snd e).
    repeat split; [exact Hp | exact Hd |].
    eapply row_time_of. exact Hrow. }
  split.
  - intros s s' Hrun.
    pose proof (Hrows _ _ (hourly_of_run d0 d s s' Hd0 Hrun)) as Hall.
    split; [| exact Hall].
    symmetry. eapply Forall2_length. exact Hall.
  - intros Ht Hp Hw.
    assert (Hex : exists rows trend, hourly_part today (JDict d) = Ok (rows, trend)).
    { unfold hourly_part. simpl. rewrite Hts. simpl.
      destruct (hourly_loop_total today _ _ _ ts Ht Hp Hw 0%nat [] []) as (rows & sv & ->).
      simpl. eexists _, _; reflexivity. }
    destruct Hex as (rows & trend & Hpart). exists rows, trend.
    split; [exact Hpart |].
    symmetry. eapply Forall2_length. eapply Hrows. exact Hpart.
Qed.

(** When no row is kept, nothing has been put in [spark_vals] either: the
    points sent to the sparkline are the empty list. *)
Lemma no_rows_no_trend (d : dict) (ts : list json) (trend : list float) :
  dict_get_or "time" (JList []) d = JList ts ->
  hourly_part today (JDict d) = Ok ([], trend) ->
  trend = [].
Proof.
  intros Hts Hpart.
  destruct (hourly_part_ok d ts [] trend Hts Hpart) as (sv & Hloop & ->).
  apply hourly_loop_ok in Hloop as (rs & _ & Hrows & Hsv & _).
  simpl in Hrows. subst rs. simpl. apply Hsv. reflexivity.
Qed.

(** C5: a field whose array is not longer than the index of the entry
    is 0.0, and evaluating it raises nothing; so in every row of the table
    after a run of the slot the temperature, precipitation and wind are 0.0
    wherever the entry's position in [time] is beyond the end of the
    respective array.  With three temperatures, positions 3 and 4 get
    0.0. *)
Theorem short_arrays_give_zero :
  (forall (xs : json) (n i : nat),
      py_len xs = Ok n -> (n <= i)%nat ->
      float_at xs i = Ok fzero /\ float_or_zero_at xs i = Ok fzero)
  /\ (forall (d0 d : dict) (ts : list json) (s s' : app),
        dict_get "hourly" d0 = Some (JDict d) ->
        dict_get_or "time" (JList []) d = JList ts ->
        _handle_forecast today (JDict d0) s = (Ok tt, s') ->
        Forall2 (fun e r =>
                   (forall n, py_len (dict_get_or "temperature_2m" (JList []) d) = Ok n ->
                              (n <= fst e)%nat -> row_temp r = fzero)
                   /\ (forall n, py_len (dict_get_or "precipitation_probability" (JList []) d) = Ok n ->
                                 (n <= fst e)%nat -> row_precip r = fzero)
                   /\ (forall n, py_len (dict_get_or "windspeed_10m" (JList []) d) = Ok n ->
                                 (n <= fst e)%nat -> row_wind r = fzero))
          (kept_from today 0 ts) (model_rows s'))
  /\ (forall l : list json,
        length l = 3%nat ->
        float_at (JList l) 3 = Ok fzero /\ float_at (JList l) 4 = Ok fzero).
Proof.
  assert (Hfield : forall (xs : json) (n i : nat),
             py_len xs = Ok n -> (n <= i)%nat ->
             float_at xs i = Ok fzero /\ float_or_zero_at xs i = Ok fzero).
  { intros xs n i Hn Hi. unfold float_at, float_or_zero_at. rewrite Hn. simpl.
    apply Nat.ltb_ge in Hi. rewrite Hi. split; reflexivity. }
  split; [exact Hfield |]. split.
  - intros d0 d ts s s' Hd0 Hts Hrun.
    pose proof (hourly_of_run d0 d s s' Hd0 Hrun) as Hpart.
    destruct (hourly_part_ok d ts _ _ Hts Hpart) as (sv & Hloop & _).
    apply hourly_loop_ok in Hloop as (rs & Hrs & Hrows & _).
    simpl in Hrows. rewrite Hrows.
    eapply Forall2_impl; [| exact Hrs].
    intros e r Hrow. unfold hourly_row_at in Hrow.
    destruct (float_at _ (fst e)) as [t|x] eqn:Ht; simpl in Hrow; [| discriminate].
    destruct (float_or_zero_at _ (fst e)) as [p|x] eqn:Hp; simpl in Hrow; [| discriminate].
    destruct (float_at (dict_get_or "windspeed_10m" _ _) (fst e)) as [w|x] eqn:Hw;
      simpl in Hrow; [| discriminate].
    injection Hrow as <-. simpl.
    repeat split; intros n Hn Hi.
    + destruct (Hfield _ n (fst e) Hn Hi) as [Hz _]. congruence.
    + destruct (Hfield _ n (fst e) Hn Hi) as [_ Hz]. congruence.
    + destruct (Hfield _ n (fst e) Hn Hi) as [Hz _]. congruence.
  - intros l Hl. split; apply (Hfield (JList l) 3%nat); simpl; try (f_equal; exact Hl); lia.
Qed.
End HourlyPart.

Example two_day_hourly_rows :
  hourly_part nov3 (JDict two_day_hourly)
  = Ok ([ {| row_time := "12:00 AM"; row_temp := 71; row_precip := 0; row_wind := 0 |};
          {| row_time := "1:00 AM"; row_temp := 72; row_precip := 0; row_wind := 0 |};
          {| row_time := "2:00 AM"; row_temp := 0; row_precip := 0; row_wind := 0 |};
          {| row_time := "3:00 AM"; row_temp := 0; row_precip := 0; row_wind := 0 |} ],
        [71; 72; 0; 0]%float).
Proof. reflexivity. Qed.

Example two_day_run :
  fst (_handle_forecast nov3 (JDict two_day_forecast) after_geocode) = Ok tt
  /\ map row_temp (model_rows (snd (_handle_forecast nov3 (JDict two_day_forecast) after_geocode)))
     = [71; 72; 0; 0]%float.
Proof. split; reflexivity. Qed.

Lemma hourly_rows_are_those_of_today_witness :
  length (model_rows (snd (_handle_forecast nov3 (JDict two_day_forecast) after_geocode)))
  = 4%nat
  /\ exists rows trend, hourly_part nov3 (JDict two_day_hourly) = Ok (rows, trend).
Proof.
  pose proof (hourly_rows_are_those_of_today nov3 two_day_forecast two_day_hourly _
                eq_refl eq_refl) as [Hrun Htotal].
  split.
  - apply (Hrun after_geocode). reflexivity.
  - destruct Htotal as (rows & trend & Hpart & _).
    + eexists. split; [reflexivity |]. repeat constructor; eexists; reflexivity.
    + eexists. split; [reflexivity |]. repeat constructor; eexists; reflexivity.
    + eexists. split; [reflexivity |]. repeat constructor; eexists; reflexivity.
    + exists rows, trend. exact Hpart.
Defined.

Lemma short_arrays_give_zero_witness :
  float_at (JList [JFloat 70; JFloat 71; JFloat 72]) 4 = Ok fzero
  /\ float_or_zero_at (JList [JInt 10; JNull]) 2 = Ok fzero
  /\ Forall2 (fun e r => (3 <= fst e)%nat -> row_temp r = fzero)
       (kept_from nov3 0
          [JStr "2026-11-02T23:00"; JStr "2026-11-03T00:00"; JStr "2026-11-03T01:00";
           JStr "2026-11-03T02:00"; JStr "2026-11-03T03:00"])
       (model_rows (snd (_handle_forecast nov3 (JDict two_day_forecast) after_geocode))).
Proof.
  destruct (short_arrays_give_zero nov3) as (Hfield & Hrows & _).
  split; [| split].
  - apply (Hfield (JList [JFloat 70; JFloat 71; JFloat 72]) 3%nat 4%nat); [reflexivity | lia].
  - apply (Hfield (JList [JInt 10; JNull]) 2%nat 2%nat); [reflexivity | lia].
  - eapply Forall2_impl;
      [| apply (Hrows two_day_forecast two_day_hourly _ after_geocode _
                  eq_refl eq_refl eq_refl)].
    intros e r (Htemp & _ & _) Hle. apply (Htemp 3%nat); [reflexivity | exact Hle].
Defined.

(** ** The trend series *)

(** C1: the entry of [other_day_forecast] parses and has a temperature
    within range, and no entry is of the reference date; the fall-back of the
    specification is the one temperature 50.0, yet the slot completes with an
    empty list sent to the sparkline: [spark_vals] is appended to only after
    the date test, so it is empty whenever [rows] is ([no_rows_no_trend]). *)
Theorem trend_fallback_is_empty :
  let out := _handle_forecast nov3 other_day_forecast (snd fort_myers_run) in
  spark_values (snd fort_myers_run) = [88.5; 0]%float
  /\ fst out = Ok tt
  /\ model_rows (snd out) = []
  /\ spark_values (snd out) = []
  /\ all_parsed_temperatures (JList [JFloat 50]) 0 [JStr "2020-01-01T00:00"] = Ok [50%float].
Proof. repeat split. Qed.

(** ** A forecast reply without its blocks *)

Section MissingBlocks.
Context `{Library}.

(** C2, as the code has it: a forecast reply whose body is a JSON
    object in which the [current_weather], [hourly] and [daily] blocks are
    absent (or null, or empty) is not a failure.  Each block is read as an
    empty dict and the slot completes with the default view: 0 degrees and
    "Clear", an empty table, an empty sparkline, no cards; the Fetch button
    is enabled again, the refresh timer runs, and no message box is
    shown. *)
Theorem forecast_without_blocks_completes (today : date) (r : reply) (d : dict)
    (s : app) (place : string) :
  reply_kind r = "forecast" ->
  reply_body r = Some (JDict d) ->
  truthy (dict_get_or "current_weather" JNull d) = false ->
  truthy (dict_get_or "hourly" JNull d) = false ->
  truthy (dict_get_or "daily" JNull d) = false ->
  _resolved_place s = Some place ->
  let out := _on_reply today r s in
  fst out = Ok tt
  /\ header (snd out)
     = "0" ++ degree ++ py_str (dict_get_or "unit" (JStr "F") (prefs s))
       ++ " " ++ dash ++ " Clear"
  /\ location_label (snd out) = place
  /\ model_rows (snd out) = []
  /\ spark_values (snd out) = []
  /\ daily_strip (snd out) = []
  /\ fetch_btn (snd out) = true
  /\ auto_timer (snd out) = true
  /\ dialogs (snd out) = dialogs s
  /\ requests (snd out) = requests s.
Proof.
  intros Hkind Hbody Hc Hh Hd Hplace.
  rewrite (_on_reply_forecast today r (JDict d) s Hkind Hbody).
  unfold _handle_forecast. cbn [py_get]. run_slot.
  unfold py_or. rewrite Hc, Hh, Hd.
  cbn [py_get dict_get_or dict_get py_int py_format_0f]. run_slot.
  rewrite Hplace. run_slot.
  repeat split; reflexivity.
Qed.
End MissingBlocks.

Lemma forecast_without_blocks_completes_witness :
  fst (_on_reply nov3 empty_forecast_reply after_geocode) = Ok tt
  /\ auto_timer (snd (_on_reply nov3 empty_forecast_reply after_geocode)) = true.
Proof.
  pose proof (forecast_without_blocks_completes nov3 empty_forecast_reply []
                after_geocode "Fort Myers, Florida, United States"
                eq_refl eq_refl eq_refl eq_refl eq_refl eq_refl) as Hout.
  split; [apply Hout | apply Hout].
Defined.

(** C2, as stated, does not hold: on the empty object no failure is
    surfaced, and the view is replaced by the default one. *)
Lemma forecast_without_blocks_is_no_failure :
  let out := _on_reply nov3 empty_forecast_reply after_geocode in
  ~ surfaces_failure after_geocode out
  /\ fst out = Ok tt
  /\ header (snd out) = "0" ++ degree ++ "F " ++ dash ++ " Clear"
  /\ fetch_btn (snd out) = true
  /\ auto_timer (snd out) = true.
Proof.
  split; [| repeat split].
  intros [[e He] | Hd].
  - discriminate He.
  - apply Hd. reflexivity.
Qed.

(** ** The daily cards *)

Lemma Forall2_seq_nth {B} (P : nat -> B -> Prop) (ys : list B) :
  forall a k, Forall2 P (seq a k) ys ->
  forall i y, nth_error ys i = Some y -> P (a + i)%nat y.
Proof.
  induction ys as [|y0 ys IH]; intros a k Hf i y Hi.
  - destruct i; discriminate.
  - destruct k as [|k]; simpl in Hf; inversion Hf as [|? ? ? ? Hy Hrest]; subst.
    destruct i as [|i]; simpl in Hi.
    + injection Hi as <-. rewrite Nat.add_0_r. exact Hy.
    + replace (a + S i)%nat with (S a + i)%nat by lia. eapply IH; eassumption.
Qed.

Section Daily.
Context `{Library}.

Lemma int_at_total (xs : json) (i : nat) :
  list_of py_int xs -> exists n, int_at xs i = Ok n.
Proof.
  intros Hxs. unfold int_at.
  destruct (entry_converts _ xs i Hxs) as (n & Hn & Hi).
  rewrite Hn. simpl.
  destruct Hi as [-> | (-> & v & f & Hv & Hf)]; [eexists; reflexivity |].
  rewrite Hv. simpl. rewrite Hf. eexists; reflexivity.
Qed.

(** The loop behind [daily_part] on a block whose [time] is the list [l]. *)
Lemma daily_part_unfold (d : dict) (l : list json) :
  dict_get_or "time" (JList []) d = JList l ->
  daily_part (JDict d)
  = mapR (daily_row_at (JList l)
            (dict_get_or "temperature_2m_max" (JList []) d)
            (dict_get_or "temperature_2m_min" (JList []) d)
            (dict_get_or "weathercode" (JList []) d))
      (seq 0 (Nat.min 5 (length l))).
Proof.
  intros Hl. unfold daily_part. simpl. rewrite Hl. reflexivity.
Qed.

Lemma daily_row_at_total (l : list json) (d_max d_min d_code : json) (i : nat) :
  (exists x dt, nth_error l i = Some (JStr x) /\ fromisoformat x = Some dt) ->
  list_of py_float d_max -> list_of py_float d_min -> list_of py_int d_code ->
  exists r, daily_row_at (JList l) d_max d_min d_code i = Ok r.
Proof.
  intros (x & dt & Hx & Hdt) Hmax Hmin Hcode. unfold daily_row_at. simpl.
  rewrite Hx. simpl. rewrite Hdt. simpl.
  destruct (float_at_total d_max i Hmax) as [mx ->].
  destruct (float_at_total d_min i Hmin) as [mn ->].
  destruct (int_at_total d_code i Hcode) as [cd ->].
  simpl. eexists; reflexivity.
Qed.

Lemma daily_row_at_fields (d_dates d_max d_min d_code : json) (i : nat) (r : daily_row) :
  daily_row_at d_dates d_max d_min d_code i = Ok r ->
  (exists x dt, py_index d_dates i = Ok x /\ py_fromisoformat x = Ok dt
                /\ daily_date r = strftime_a (dt_date dt))
  /\ float_at d_max i = Ok (daily_max r)
  /\ float_at d_min i = Ok (daily_min r)
  /\ int_at d_code i = Ok (daily_code r).
Proof.
  unfold daily_row_at.
  destruct (py_index d_dates i) as [x|] eqn:Hx; simpl; [| discriminate].
  destruct (py_fromisoformat x) as [dt|] eqn:Hdt; simpl; [| discriminate].
  destruct (float_at d_max i) as [mx|]; simpl; [| discriminate].
  destruct (float_at d_min i) as [mn|]; simpl; [| discriminate].
  destruct (int_at d_code i) as [cd|]; simpl; [| discriminate].
  intros [= <-]. simpl.
  split; [exists x, dt; repeat split; assumption | repeat split].
Qed.

(** C6, as the code has it: when the first min(5, n) entries of the
    daily [time] list are date strings that parse, and the entries of the
    max, min and code lists convert, exactly min(5, n) daily rows are
    built, the row at position i from index i of the arrays, with 0.0 or
    0 where an array ends before i; seven entries give five rows.  After a
    run of the slot the strip holds one card per row, in that order. *)
Theorem daily_rows_are_the_first_five (d : dict) (l : list json) :
  dict_get_or "time" (JList []) d = JList l ->
  (forall i, (i < Nat.min 5 (length l))%nat ->
             exists x dt, nth_error l i = Some (JStr x) /\ fromisoformat x = Some dt) ->
  list_of py_float (dict_get_or "temperature_2m_max" (JList []) d) ->
  list_of py_float (dict_get_or "temperature_2m_min" (JList []) d) ->
  list_of py_int (dict_get_or "weathercode" (JList []) d) ->
  exists rows,
    daily_part (JDict d) = Ok rows
    /\ length rows = Nat.min 5 (length l)
    /\ (length l = 7%nat -> length rows = 5%nat)
    /\ (forall i r, nth_error rows i = Some r ->
          daily_row_at (JList l)
            (dict_get_or "temperature_2m_max" (JList []) d)
            (dict_get_or "temperature_2m_min" (JList []) d)
            (dict_get_or "weathercode" (JList []) d) i = Ok r
          /\ (forall n, py_len (dict_get_or "temperature_2m_max" (JList []) d) = Ok n ->
                        (n <= i)%nat -> daily_max r = fzero)
          /\ (forall n, py_len (dict_get_or "temperature_2m_min" (JList []) d) = Ok n ->
                        (n <= i)%nat -> daily_min r = fzero)
          /\ (forall n, py_len (dict_get_or "weathercode" (JList []) d) = Ok n ->
                        (n <= i)%nat -> daily_code r = 0))
    /\ (forall today d0 s s',
          dict_get "daily" d0 = Some (JDict d) ->
          _handle_forecast today (JDict d0) s = (Ok tt, s') ->
          daily_strip s' = map card_of rows).
Proof.
  intros Hl Hdates Hmax Hmin Hcode.
  pose proof (daily_part_unfold d l Hl) as Hpart.
  destruct (mapR_total
              (daily_row_at (JList l)
                 (dict_get_or "temperature_2m_max" (JList []) d)
                 (dict_get_or "temperature_2m_min" (JList []) d)
                 (dict_get_or "weathercode" (JList []) d))
              (seq 0 (Nat.min 5 (length l)))) as [rows Hrows].
  { apply Forall_forall. intros i Hi. apply in_seq in Hi.
    apply daily_row_at_total; try assumption. apply Hdates. lia. }
  exists rows. rewrite Hpart.
  pose proof (mapR_length _ _ _ Hrows) as Hlen. rewrite length_seq in Hlen.
  split; [exact Hrows |]. split; [exact Hlen |].
  split; [intros H7; rewrite Hlen, H7; reflexivity |]. split.
  - intros i r Hi.
    apply mapR_Forall2 in Hrows.
    pose proof (Forall2_seq_nth _ _ _ _ Hrows i r Hi) as Hrow. simpl in Hrow.
    split; [exact Hrow |].
    apply daily_row_at_fields in Hrow as (_ & Hmx & Hmn & Hcd).
    repeat split; intros n Hn Hle.
    + unfold float_at in Hmx. rewrite Hn in Hmx. simpl in Hmx.
      apply Nat.ltb_ge in Hle. rewrite Hle in Hmx. congruence.
    + unfold float_at in Hmn. rewrite Hn in Hmn. simpl in Hmn.
      apply Nat.ltb_ge in Hle. rewrite Hle in Hmn. congruence.
    + unfold int_at in Hcd. rewrite Hn in Hcd. simpl in Hcd.
      apply Nat.ltb_ge in Hle. rewrite Hle in Hcd. congruence.
  - intros today d0 s s' Hd0 Hrun.
    apply _handle_forecast_ok in Hrun as (rs & trend & rd & _ & Hd & _ & _ & Hstrip & _).
    unfold dict_get_or in Hd. rewrite Hd0, py_or_dict, Hpart, Hrows in Hd.
    injection Hd as <-. exact Hstrip.
Qed.

(** C10: the daily dates are parsed with no fall-back.  When one of the
    first min(5, n) entries of the daily [time] list is a string that is
    not an ISO date, the daily part raises; the slot then raises as well and
    the strip keeps the cards it had, none being made from this payload.
    In the hourly loop the same string is passed over. *)
Theorem daily_date_parse_is_strict (d : dict) (l : list json) (i : nat) (x : string) :
  dict_get_or "time" (JList []) d = JList l ->
  (i < Nat.min 5 (length l))%nat ->
  nth_error l i = Some (JStr x) ->
  fromisoformat x = None ->
  raises (daily_part (JDict d))
  /\ (forall today d0 s,
        dict_get "daily" d0 = Some (JDict d) ->
        raises (fst (_handle_forecast today (JDict d0) s))
        /\ daily_strip (snd (_handle_forecast today (JDict d0) s)) = daily_strip s)
  /\ (forall today temps precs winds k ts rows sv,
        hourly_loop today temps precs winds k (JStr x :: ts) rows sv
        = hourly_loop today temps precs winds (S k) ts rows sv).
Proof.
  intros Hl Hi Hx Hparse.
  assert (Hraise : raises (daily_part (JDict d))).
  { rewrite (daily_part_unfold d l Hl).
    apply mapR_raises with (x := i).
    - apply in_seq. lia.
    - exists ValueError. unfold daily_row_at. simpl. rewrite Hx. simpl.
      rewrite Hparse. reflexivity. }
  split; [exact Hraise |]. split.
  - intros today d0 s Hd0.
    apply _handle_forecast_daily_raises.
    unfold dict_get_or. rewrite Hd0, py_or_dict. exact Hraise.
  - intros today temps precs winds k ts rows sv. simpl. rewrite Hparse. reflexivity.
Qed.
End Daily.

Example week_daily_rows :
  daily_part (JDict week_daily)
  = Ok [ {| daily_date := "Tue"; daily_max := 90; daily_min := 70; daily_code := 1 |};
         {| daily_date := "Wed"; daily_max := 0; daily_min := 71; daily_code := 61 |};
         {| daily_date := "Thu"; daily_max := 0; daily_min := 0; daily_code := 0 |};
         {| daily_date := "Fri"; daily_max := 0; daily_min := 0; daily_code := 0 |};
         {| daily_date := "Sat"; daily_max := 0; daily_min := 0; daily_code := 0 |} ].
Proof. reflexivity. Qed.

Lemma daily_rows_are_the_first_five_witness :
  exists rows, daily_part (JDict week_daily) = Ok rows /\ length rows = 5%nat.
Proof.
  destruct (daily_rows_are_the_first_five week_daily _ eq_refl) as (rows & Hrows & Hlen & _).
  - intros i Hi. simpl in Hi.
    do 5 (destruct i as [|i]; [eexists _, _; split; reflexivity |]). lia.
  - eexists. split; [reflexivity |]. repeat constructor; eexists; reflexivity.
  - eexists. split; [reflexivity |]. repeat constructor; eexists; reflexivity.
  - eexists. split; [reflexivity |]. repeat constructor; eexists; reflexivity.
  - exists rows. split; [exact Hrows | exact Hlen].
Defined.

(** C6, as stated for every daily payload, does not hold: this block
    has one entry and gives no row at all. *)
Lemma daily_rows_need_iso_dates :
  let out := _handle_forecast nov3 (JDict [("daily", JDict tomorrow_daily)]) after_geocode in
  daily_part (JDict tomorrow_daily) = Raise ValueError
  /\ ~ (exists rows, daily_part (JDict tomorrow_daily) = Ok rows
                     /\ length rows = Nat.min 5 1)
  /\ fst out = Raise ValueError
  /\ daily_strip (snd out) = [].
Proof.
  split; [reflexivity |]. split; [| split; reflexivity].
  intros (rows & Hrows & _). discriminate Hrows.
Qed.

Lemma daily_date_parse_is_strict_witness :
  raises (daily_part (JDict tomorrow_daily))
  /\ daily_strip (snd (_handle_forecast nov3 (JDict [("daily", JDict tomorrow_daily)])
                         (snd fort_myers_run)))
     = daily_strip (snd fort_myers_run).
Proof.
  pose proof (daily_date_parse_is_strict tomorrow_daily [JStr "tomorrow"] 0 "tomorrow"
                eq_refl) as Hstrict.
  destruct Hstrict as (Hraise & Hslot & _); [simpl; lia | reflexivity | reflexivity |].
  split; [exact Hraise |].
  apply (Hslot nov3 [("daily", JDict tomorrow_daily)] (snd fort_myers_run) eq_refl).
Defined.

(** * Further properties of the slots and widgets *)

Example strptime_samples :
  strptime_IMp "1:00 PM" = Some (13, 0)
  /\ strptime_IMp "12:05 AM" = Some (0, 5)
  /\ strptime_IMp "12:30 pm" = Some (12, 30)
  /\ strptime_IMp "01:07 AM" = Some (1, 7)
  /\ strptime_IMp "9:5  am" = Some (9, 5)
  /\ strptime_IMp "13:00 PM" = None
  /\ strptime_IMp "0:00 AM" = None
  /\ strptime_IMp "1:00PM" = None
  /\ strptime_IMp "1:00 PM " = None.
Proof. repeat split. Qed.

Example sparkline_samples :
  Sparkline._recompute 224 124 [70; 80; 75]%float
  = [(12, 112); (112, 12); (212, 62)]%float
  /\ Sparkline._recompute 224 124 [70; 70]%float = [(12, 112); (212, 112)]%float
  /\ length (Sparkline.paintEvent (Sparkline._recompute 224 124 [70; 80; 75]%float)) = 3%nat.
Proof. repeat split. Qed.

(** ** Submitting, and the geocode stage *)

Section GeocodeStage.
Context `{Library}.

(** X1: A run of [_handle_geocode] ends in one of three ways, whatever the
    payload: it raises and the state is untouched (the Fetch button stays as
    it was, nothing is requested, nothing is shown); or it shows the
    "Not found" warning and enables the button; or it records the place and
    issues exactly one request, tagged "forecast". *)
Theorem _handle_geocode_outcomes (payload : json) (s : app) :
  geocode_outcome s (_handle_geocode payload s).
Proof.
  unfold _handle_geocode. run_slot.
  destruct (py_get payload "results" JNull) as [r|e]; [| constructor].
  destruct (negb (truthy (py_or r (JList [])))); [apply geocode_not_found |].
  repeat match goal with
         | |- geocode_outcome _ (match ?r with Ok _ => _ | Raise _ => _ end) =>
             destruct r; [| constructor]
         end.
  apply geocode_resolved.
Qed.

(** X2: The place and the request of a resolved geocode reply: the label is the
    name, region and country of the first result joined by ", " with the
    absent or empty ones left out, and the unit tokens of the request go
    together, fahrenheit with mph when the saved unit is "F" and celsius with
    kmh otherwise. *)
Theorem _handle_geocode_resolves (d r0 : dict) (rest : list json) (lat lon : json) (s : app) :
  dict_get "results" d = Some (JList (JDict r0 :: rest)) ->
  dict_get "latitude" r0 = Some lat ->
  dict_get "longitude" r0 = Some lon ->
  Forall (fun k => dict_get_or k JNull r0 = JNull \/ exists t, dict_get_or k JNull r0 = JStr t)
    ["name"; "admin1"; "country"] ->
  let place :=
    join_strs ", "
      (filter (fun t => negb (String.eqb t ""))
         (map (fun k => part_text (dict_get_or k JNull r0)) ["name"; "admin1"; "country"])) in
  let units :=
    if eq_str (dict_get_or "unit" JNull (prefs s)) "F"
    then ("fahrenheit", "mph") else ("celsius", "kmh") in
  _handle_geocode (JDict d) s
  = (Ok tt,
     set_requests
       (requests s
        ++ [Build_request (OPEN_METEO_FORECAST (py_str lat) (py_str lon) (fst units) (snd units))
              "forecast"])
       (set_resolved_place (Some place) s)).
Proof.
  intros Hres Hlat Hlon Hparts place units. subst place units.
  assert (Hres' : dict_get_or "results" JNull d = JList (JDict r0 :: rest))
    by (unfold dict_get_or; rewrite Hres; reflexivity).
  unfold _handle_geocode. cbn [py_get]. run_slot.
  rewrite Hres'. cbn [py_or truthy negb py_index nth_error].
  cbn [py_item py_get]. rewrite Hlat, Hlon.
  inversion Hparts as [|? ? Hn Hparts1]; subst.
  inversion Hparts1 as [|? ? Ha Hparts2]; subst.
  inversion Hparts2 as [|? ? Hc _]; subst.
  cbn [map].
  destruct Hn as [-> | [n ->]], Ha as [-> | [a ->]], Hc as [-> | [c ->]];
    cbn [part_text filter truthy];
    repeat match goal with
           | |- context [String.eqb ?t ""] => is_var t; destruct (String.eqb t "")
           end;
    cbn [negb py_join mapR as_str bindR join_strs filter];
    destruct (eq_str (dict_get_or "unit" JNull (prefs s)) "F"); reflexivity.
Qed.
End GeocodeStage.

Lemma dict_get_or_set_same (k : string) (v dflt : json) (d : dict) :
  dict_get_or k dflt (dict_set k v d) = v.
Proof. unfold dict_get_or. rewrite dict_get_set_same. reflexivity. Qed.

(** X3: After [fetch] of a city name that is not blank (not empty once the
    white space at its ends is removed), the saved unit is the one the combo
    box shows, whatever the preferences held before, and the Fetch button is
    disabled: so such a fetch followed by a resolved geocode reply issues
    the geocode request and then the forecast request, the latter with
    fahrenheit and mph when the text of the unit box ends in "F" and with
    celsius and kmh otherwise.  (A blank name is the case of C8: nothing is
    saved and the button stays as it is.) *)
Theorem fetch_then_geocode_units `{Library} (today : date) (s : app) (r : reply) :
  strip (city_edit s) <> "" ->
  reply_kind r = "geocode" ->
  let s1 := snd (fetch s) in
  let s2 := snd (_on_reply today r s1) in
  dict_get_or "unit" JNull (prefs s1)
  = JStr (if endswith (unit_box s) "F" then "F" else "C")
  /\ fetch_btn s1 = false
  /\ forall place url,
       _on_reply today r s1
       = (Ok tt, set_requests (requests s1 ++ [Build_request url "forecast"])
                   (set_resolved_place (Some place) s1)) ->
       exists lat lon,
         requests s2
         = (requests s
            ++ [Build_request (OPEN_METEO_GEOCODE (strip (city_edit s))) "geocode";
                Build_request
                  (if endswith (unit_box s) "F"
                   then OPEN_METEO_FORECAST lat lon "fahrenheit" "mph"
                   else OPEN_METEO_FORECAST lat lon "celsius" "kmh") "forecast"])%list.
Proof.
  intros Hname Hkind s1 s2.
  assert (Hs1 : s1 = set_requests
                       (requests s ++ [Build_request (OPEN_METEO_GEOCODE (strip (city_edit s)))
                                         "geocode"])
                       (set_prefs_file
                          (prefs_file s
                           ++ [dict_set "unit" (JStr (if endswith (unit_box s) "F" then "F" else "C"))
                                 (prefs s)])
                          (set_prefs
                             (dict_set "unit" (JStr (if endswith (unit_box s) "F" then "F" else "C"))
                                (prefs s))
                             (set_fetch_btn false s)))).
  { subst s1. unfold fetch. run_slot.
    destruct (String.eqb_spec (strip (city_edit s)) ""); [contradiction | reflexivity]. }
  assert (Hunit : dict_get_or "unit" JNull (prefs s1)
                  = JStr (if endswith (unit_box s) "F" then "F" else "C")).
  { rewrite Hs1. cbn [prefs set_requests set_prefs_file set_prefs].
    apply dict_get_or_set_same. }
  split; [exact Hunit |]. split; [rewrite Hs1; reflexivity |].
  intros place url Hrun. subst s2. rewrite Hrun. cbn [snd requests set_requests].
  revert Hrun. unfold _on_reply. rewrite Hkind. cbn [String.eqb Ascii.eqb Bool.eqb].
  unfold _handle_geocode. run_slot.
  destruct (py_get _ "results" JNull) as [res|e]; [| discriminate].
  destruct (negb (truthy (py_or res (JList [])))).
  { intros Hst. apply (f_equal (fun o => requests (snd o))) in Hst.
    cbn [snd requests set_fetch_btn set_dialogs set_requests set_resolved_place] in Hst.
    exfalso. apply (f_equal (@length request)) in Hst.
    rewrite length_app in Hst. simpl in Hst. lia. }
  repeat match goal with
         | |- match ?r with Ok _ => _ | Raise _ => _ end = _ -> _ =>
             destruct r as [?v|]; [| discriminate]
         end.
  rewrite Hunit. intros Hst. apply (f_equal (fun o => requests (snd o))) in Hst.
  cbn [snd requests set_requests set_resolved_place] in Hst.
  apply app_inv_head in Hst. injection Hst as Hurl.
  assert (Hreq : requests s1
                 = (requests s ++ [Build_request (OPEN_METEO_GEOCODE (strip (city_edit s)))
                                     "geocode"])%list)
    by (rewrite Hs1; reflexivity).
  rewrite Hreq, <- app_assoc. cbn [List.app].
  destruct (endswith (unit_box s) "F"); cbn [eq_str String.eqb Ascii.eqb Bool.eqb] in Hurl;
    eexists _, _; rewrite <- Hurl; reflexivity.
Qed.

(** ** The forecast stage *)

Lemma dict_get_set_other (k k' : string) (v : json) (d : dict) :
  k <> k' -> dict_get k' (dict_set k v d) = dict_get k' d.
Proof.
  intros Hne. induction d as [|[k0 v0] d IH]; simpl.
  - destruct (String.eqb_spec k' k); [congruence | reflexivity].
  - destruct (String.eqb_spec k k0) as [-> | Hk]; simpl.
    + destruct (String.eqb_spec k' k0); [congruence | reflexivity].
    + destruct (String.eqb_spec k' k0); [reflexivity | exact IH].
Qed.

Ltac frame_done :=
  unfold forecast_frame; cbn [fst snd];
  repeat match goal with |- _ /\ _ => split end;
  try reflexivity;
  let Hraised := fresh "Hraised" in
  intros [? Hraised];
  first [discriminate Hraised | repeat split; reflexivity].

Section ForecastStage.
Context `{Library}.

(** X4: Whatever the payload and however the run ends, [_handle_forecast] issues
    no network request, shows no message box and leaves the city field and
    the favorites box alone; and a run that raises has not enabled the Fetch
    button, started the timer, changed or saved the preferences, or touched
    the daily strip. *)
Theorem _handle_forecast_frame (today : date) (payload : json) (s : app) :
  forecast_frame s (_handle_forecast today payload s).
Proof.
  unfold _handle_forecast. run_slot.
  repeat match goal with
         | |- forecast_frame _ (match ?r with Ok _ => _ | Raise _ => _ end) =>
             destruct r; [| frame_done]
         end.
  destruct (_resolved_place s) as [place|]; [| frame_done].
  run_slot.
  repeat match goal with
         | |- forecast_frame _ (match ?r with Ok _ => _ | Raise _ => _ end) =>
             destruct r; [| frame_done]
         end.
  rewrite _fill_daily_strip_run. run_slot. frame_done.
Qed.

(** The trend of the hourly part is the list of the temperatures of its
    rows, for every hourly block: the fall-back on [spark_vals] never
    contributes a value. *)
Lemma hourly_part_trend (today : date) (hourly : json) (rows : list hourly_row)
    (trend : list float) :
  hourly_part today hourly = Ok (rows, trend) -> trend = map row_temp rows.
Proof.
  unfold hourly_part.
  destruct (py_get hourly "time" _) as [times|]; simpl; [| discriminate].
  destruct (py_get hourly "temperature_2m" _) as [temps|]; simpl; [| discriminate].
  destruct (py_get hourly "precipitation_probability" _) as [precs|]; simpl; [| discriminate].
  destruct (py_get hourly "windspeed_10m" _) as [winds|]; simpl; [| discriminate].
  destruct (py_iter times) as [ts|]; simpl; [| discriminate].
  destruct (hourly_loop today temps precs winds 0 ts [] []) as [[rs sv]|] eqn:Hloop;
    simpl; [| discriminate].
  intros [= <- <-].
  apply hourly_loop_ok in Hloop as (rs' & _ & Hrows & Hsv & _).
  simpl in Hrows. subst rs'.
  destruct rs as [|r rs]; [| reflexivity].
  simpl. apply Hsv. reflexivity.
Qed.

Lemma kept_from_length (today : date) (ts : list json) :
  forall i, (length (kept_from today i ts) <= length ts)%nat.
Proof.
  induction ts as [|t ts IH]; intros i; simpl; [lia |].
  destruct (py_fromisoformat t) as [dt|]; [| specialize (IH (S i)); lia].
  destruct (date_eqb (dt_date dt) today); simpl; specialize (IH (S i)); lia.
Qed.

Lemma hourly_part_length (today : date) (hourly times : json) (ts : list json)
    (rows : list hourly_row) (trend : list float) :
  py_get hourly "time" (JList []) = Ok times ->
  py_iter times = Ok ts ->
  hourly_part today hourly = Ok (rows, trend) ->
  (length rows <= length ts)%nat.
Proof.
  intros Htimes Hts. unfold hourly_part. rewrite Htimes. simpl.
  destruct (py_get hourly "temperature_2m" _) as [temps|]; simpl; [| discriminate].
  destruct (py_get hourly "precipitation_probability" _) as [precs|]; simpl; [| discriminate].
  destruct (py_get hourly "windspeed_10m" _) as [winds|]; simpl; [| discriminate].
  rewrite Hts. simpl.
  destruct (hourly_loop today temps precs winds 0 ts [] []) as [[rs sv]|] eqn:Hloop;
    simpl; [| discriminate].
  intros [= <- <-].
  apply hourly_loop_ok in Hloop as (rs' & Hrs & Hrows & _).
  simpl in Hrows. subst rs'.
  apply Forall2_length in Hrs. rewrite <- Hrs. apply kept_from_length.
Qed.

Lemma daily_part_length (daily : json) (rows : list daily_row) :
  daily_part daily = Ok rows -> (length rows <= 5)%nat.
Proof.
  unfold daily_part.
  destruct (py_get daily "time" _) as [d_dates|]; cbn [bindR]; [| discriminate].
  destruct (py_get daily "temperature_2m_max" _) as [d_max|]; cbn [bindR]; [| discriminate].
  destruct (py_get daily "temperature_2m_min" _) as [d_min|]; cbn [bindR]; [| discriminate].
  destruct (py_get daily "weathercode" _) as [d_code|]; cbn [bindR]; [| discriminate].
  destruct (py_len d_dates) as [n|]; cbn [bindR]; [| discriminate].
  intros Hrows. apply mapR_length in Hrows. rewrite Hrows, length_seq. lia.
Qed.

(** X5: What a completed run of the slot shows, whatever the payload was: the
    sparkline holds exactly the temperatures of the table rows, in the same
    order, and the strip holds at most five cards. *)
Theorem _handle_forecast_view (today : date) (payload : json) (s s' : app) :
  _handle_forecast today payload s = (Ok tt, s') ->
  spark_values s' = map row_temp (model_rows s')
  /\ (length (daily_strip s') <= 5)%nat.
Proof.
  intros Hrun.
  destruct payload as [| | | | | |d];
    try (unfold _handle_forecast in Hrun; run_slot; discriminate Hrun).
  apply _handle_forecast_ok in Hrun
    as (rows & trend & rd & Hh & Hd & <- & <- & Hstrip & _).
  split.
  - eapply hourly_part_trend. exact Hh.
  - rewrite Hstrip, length_map. eapply daily_part_length. exact Hd.
Qed.

(** X6: What a completed run persists: the stripped text of the city field
    becomes [last_city], the other preferences keep their values, exactly one
    document is written and it is the preferences as they now are; the
    button is enabled and the refresh timer runs. *)
Theorem _handle_forecast_persists (today : date) (payload : json) (s s' : app) :
  _handle_forecast today payload s = (Ok tt, s') ->
  dict_get "last_city" (prefs s') = Some (JStr (strip (city_edit s)))
  /\ (forall k, k <> "last_city" -> dict_get k (prefs s') = dict_get k (prefs s))
  /\ prefs_file s' = (prefs_file s ++ [prefs s'])%list
  /\ fetch_btn s' = true
  /\ auto_timer s' = true.
Proof.
  unfold _handle_forecast. run_slot. intros Hrun.
  repeat match type of Hrun with
         | match ?r with Ok _ => _ | Raise _ => _ end = _ =>
             destruct r; [| discriminate Hrun]
         end.
  destruct (_resolved_place s) as [place|]; [| discriminate Hrun].
  run_slot.
  repeat match type of Hrun with
         | match ?r with Ok _ => _ | Raise _ => _ end = _ =>
             destruct r; [| discriminate Hrun]
         end.
  rewrite _fill_daily_strip_run in Hrun. run_slot.
  apply (f_equal snd) in Hrun. cbn [snd] in Hrun. subst s'.
  run_slot. split; [apply dict_get_set_same |].
  split; [| repeat split].
  intros k Hk. apply dict_get_set_other. congruence.
Qed.
End ForecastStage.


(** ** Glyphs and conditions *)

Lemma codes_to_buckets (code : Z) :
  _condition_from_code code = condition_name (classify_table code)
  /\ _emoji_from_code code = glyph_of (classify_table code).
Proof.
  unfold _condition_from_code, _emoji_from_code, classify_table, in_range.
  repeat (match goal with
          | |- context [Z.eqb ?a ?b] => destruct (Z.eqb_spec a b)
          | |- context [Z.leb ?a ?b] => destruct (Z.leb_spec a b)
          | |- context [Z.ltb ?a ?b] => destruct (Z.ltb_spec a b)
          end; try lia; cbn [andb orb negb]); split; reflexivity.
Qed.

Lemma condition_name_inj (c1 c2 : condition) :
  condition_name c1 = condition_name c2 -> c1 = c2.
Proof. destruct c1, c2; simpl; intros Heq; try reflexivity; discriminate Heq. Qed.

(** X7: The glyph goes with the condition: two codes show the same glyph exactly
    when they have the same condition, or one is rain and the other showers,
    the two conditions that share a glyph. *)
Theorem glyph_follows_condition (c1 c2 : Z) :
  _emoji_from_code c1 = _emoji_from_code c2
  <-> (_condition_from_code c1 = _condition_from_code c2
       \/ (_condition_from_code c1 = "rain" /\ _condition_from_code c2 = "showers")
       \/ (_condition_from_code c1 = "showers" /\ _condition_from_code c2 = "rain")).
Proof.
  destruct (codes_to_buckets c1) as [-> ->], (codes_to_buckets c2) as [-> ->].
  destruct (classify_table c1), (classify_table c2); vm_compute;
    (split;
     [ intros Heq; first [discriminate Heq | left; reflexivity
                          | right; left; split; reflexivity
                          | right; right; split; reflexivity]
     | intros [Heq | [[Heq1 Heq2] | [Heq1 Heq2]]];
       first [reflexivity | discriminate Heq | discriminate Heq1 | discriminate Heq2] ]).
Qed.

(** ** The time of a row, and the table model *)

Lemma label_checks_all :
  forallb (fun h => forallb (fun m => label_checks (Z.of_nat h) (Z.of_nat m)) (seq 0 60))
    (seq 0 24) = true.
Proof. vm_compute. reflexivity. Qed.

Lemma time_label_checked (dt : datetime) :
  0 <= hour dt < 24 -> 0 <= minute dt < 60 ->
  label_checks (hour dt) (minute dt) = true.
Proof.
  intros Hh Hm.
  pose proof label_checks_all as Hall.
  rewrite forallb_forall in Hall.
  assert (Hhin : In (Z.to_nat (hour dt)) (seq 0 24)) by (apply in_seq; lia).
  specialize (Hall _ Hhin).
  rewrite forallb_forall in Hall.
  assert (Hmin : In (Z.to_nat (minute dt)) (seq 0 60)) by (apply in_seq; lia).
  specialize (Hall _ Hmin).
  rewrite !Z2Nat.id in Hall by lia. exact Hall.
Qed.

Lemma time_label_parses (dt : datetime) :
  0 <= hour dt < 24 -> 0 <= minute dt < 60 ->
  strptime_IMp (lstrip_zero (strftime_IMp dt)) = Some (hour dt, minute dt).
Proof.
  intros Hh Hm.
  pose proof (time_label_checked dt Hh Hm) as Hall.
  unfold label_checks in Hall.
  change (strftime_IMp {| dt_date := _; hour := hour dt; minute := minute dt |})
    with (strftime_IMp dt) in Hall.
  apply andb_true_iff in Hall as [Hparse _].
  destruct (strptime_IMp _) as [[h' m']|]; [| discriminate].
  apply andb_true_iff in Hparse as [Hh' Hm'].
  apply Z.eqb_eq in Hh', Hm'. subst. reflexivity.
Qed.

(** X8: The label of a row and the parse of the highlight are inverse to each
    other: for a time of day, the text [strftime("%I:%M %p").lstrip("0")]
    starts with a digit other than 0, and [strptime] with the same format
    reads the hour and the minute back from it. *)
Theorem time_label_round_trip (dt : datetime) :
  0 <= hour dt < 24 -> 0 <= minute dt < 60 ->
  strptime_IMp (lstrip_zero (strftime_IMp dt)) = Some (hour dt, minute dt)
  /\ exists c rest, lstrip_zero (strftime_IMp dt) = String c rest
                    /\ is_digit c = true /\ c <> "0"%char.
Proof.
  intros Hh Hm.
  pose proof (time_label_checked dt Hh Hm) as Hall.
  unfold label_checks in Hall.
  assert (Hlabel : forall d, strftime_IMp {| dt_date := d; hour := hour dt; minute := minute dt |}
                             = strftime_IMp dt) by reflexivity.
  rewrite Hlabel in Hall.
  apply andb_true_iff in Hall as [Hparse Hhead].
  split.
  - destruct (strptime_IMp _) as [[h' m']|]; [| discriminate].
    apply andb_true_iff in Hparse as [Hh' Hm'].
    apply Z.eqb_eq in Hh', Hm'. subst. reflexivity.
  - destruct (lstrip_zero _) as [|c rest]; [discriminate |].
    apply andb_true_iff in Hhead as [Hd Hz].
    exists c, rest. repeat split; [exact Hd |].
    intros ->. discriminate Hz.
Qed.

(** X9: A row that the forecast slot builds from the timestamp [dt] is
    highlighted as the current hour exactly when the hour of [dt] is the
    hour of the clock; the column plays no part. *)
Theorem current_hour_highlight `{Library} (temps precs winds : json) (k : nat)
    (dt : datetime) (rows : list hourly_row) (now_hour : Z) (i c : nat) (r : hourly_row) :
  hourly_row_at temps precs winds k dt = Ok r ->
  0 <= hour dt < 24 -> 0 <= minute dt < 60 ->
  nth_error rows i = Some r ->
  HourlyModel.data rows now_hour (HourlyModel.Valid i c) HourlyModel.BackgroundRole
  = Ok (if hour dt =? now_hour then HourlyModel.VBrush else HourlyModel.VNone).
Proof.
  intros Hrow Hh Hm Hi.
  apply row_time_of in Hrow.
  pose proof (time_label_parses dt Hh Hm) as Hparse.
  unfold HourlyModel.data. rewrite Hi, Hrow, Hparse.
  destruct (hour dt =? now_hour); reflexivity.
Qed.

(** X10: The bounds of the table model: [data] answers without raising for every
    role and column when the row is below [rowCount], raises [IndexError]
    when it is not, and gives nothing for an invalid index; a column from
    [columnCount] on has no display text, and [headerData] raises
    [IndexError] for such a section of the horizontal header. *)
Theorem table_model_bounds (rows : list hourly_row) (now_hour : Z) (row c : nat)
    (rl : HourlyModel.role) :
  ((row < HourlyModel.rowCount rows)%nat ->
   exists v, HourlyModel.data rows now_hour (HourlyModel.Valid row c) rl = Ok v)
  /\ ((HourlyModel.rowCount rows <= row)%nat ->
      HourlyModel.data rows now_hour (HourlyModel.Valid row c) rl = Raise IndexError)
  /\ HourlyModel.data rows now_hour HourlyModel.Invalid rl = Ok HourlyModel.VNone
  /\ ((row < HourlyModel.rowCount rows)%nat -> (HourlyModel.columnCount <= c)%nat ->
      HourlyModel.data rows now_hour (HourlyModel.Valid row c) HourlyModel.DisplayRole
      = Ok HourlyModel.VNone)
  /\ ((HourlyModel.columnCount <= c)%nat <->
      HourlyModel.headerData c HourlyModel.Horizontal HourlyModel.DisplayRole
      = Raise IndexError).
Proof.
  unfold HourlyModel.rowCount, HourlyModel.columnCount.
  split; [| split; [| split; [reflexivity | split]]].
  - intros Hrow. unfold HourlyModel.data.
    destruct (nth_error rows row) as [r|] eqn:Hr;
      [| apply nth_error_None in Hr; lia].
    destruct rl; try (eexists; reflexivity).
    + do 4 (destruct c as [|c]; [eexists; reflexivity |]). eexists; reflexivity.
    + destruct (strptime_IMp (row_time r)) as [[hr m]|]; [| eexists; reflexivity].
      destruct (hr =? now_hour); eexists; reflexivity.
  - intros Hrow. unfold HourlyModel.data.
    apply nth_error_None in Hrow. rewrite Hrow. reflexivity.
  - intros Hrow Hc. unfold HourlyModel.data.
    destruct (nth_error rows row) as [r|] eqn:Hr;
      [| apply nth_error_None in Hr; lia].
    do 4 (destruct c as [|c]; [lia |]). reflexivity.
  - unfold HourlyModel.headerData, HourlyModel.HEADERS. split.
    + intros Hc. do 4 (destruct c as [|c]; [lia |]). destruct c; reflexivity.
    + intros Hraise. do 4 (destruct c as [|c]; [discriminate Hraise |]). lia.
Qed.

(** ** The sparkline *)

Lemma points_from_length (step y_min dy : float) (h : Z) (values : list float) :
  forall i, length (Sparkline.points_from step y_min dy h i values) = length values.
Proof.
  induction values as [|y ys IH]; intros i; simpl; [reflexivity |].
  rewrite IH. reflexivity.
Qed.

Lemma lines_length (ps : list Sparkline.point) :
  forall p, length (Sparkline.lines p ps) = length ps.
Proof.
  induction ps as [|q qs IH]; intros p; simpl; [reflexivity |].
  rewrite IH. reflexivity.
Qed.

Lemma last_default {A} (l : list A) (a b : A) : l <> [] -> last l a = last l b.
Proof.
  induction l as [|x [|y l] IH]; intros Hne; [contradiction | reflexivity |].
  change (last (y :: l) a = last (y :: l) b). apply IH. discriminate.
Qed.

(** Every stroke of [lines] joins two neighbours of the list of points. *)
Lemma lines_join_neighbours (ps : list Sparkline.point) :
  forall p i, (i < length ps)%nat ->
    nth_error (Sparkline.lines p ps) i
    = Some (Sparkline.drawLine (nth i (p :: ps) p) (nth (S i) (p :: ps) p)).
Proof.
  induction ps as [|q qs IH]; intros p i Hi; simpl in Hi; [lia |].
  destruct i as [|i]; [reflexivity |].
  cbn [Sparkline.lines nth_error]. rewrite IH by lia.
  change (nth (S i) (p :: q :: qs) p) with (nth i (q :: qs) p).
  change (nth (S (S i)) (p :: q :: qs) p) with (nth (S i) (q :: qs) p).
  f_equal. f_equal; apply nth_indep; simpl; lia.
Qed.

Lemma _recompute_length (width height : Z) (values : list float) :
  length (Sparkline._recompute width height values) = length values.
Proof.
  unfold Sparkline._recompute.
  destruct values as [|y0 ys]; [reflexivity |]. apply points_from_length.
Qed.

Lemma paintEvent_length (pts : list Sparkline.point) :
  ((length pts < 2)%nat -> Sparkline.paintEvent pts = [])
  /\ ((2 <= length pts)%nat -> length (Sparkline.paintEvent pts) = length pts).
Proof.
  split.
  - intros Hlt. destruct pts as [|p [|q qs]]; simpl in Hlt; try reflexivity; lia.
  - intros Hge. destruct pts as [|p [|q qs]]; simpl in Hge; try lia.
    cbn [Sparkline.paintEvent]. rewrite length_app, lines_length. simpl. lia.
Qed.

(** X11: The sparkline has one point per value.  Nothing at all is drawn for
    fewer than two values; for n values, n >= 2, the drawing is n - 1
    segments, the i-th from point i to point i + 1, followed by the dot on
    the last point. *)
Theorem sparkline_strokes (width height : Z) (values : list float) :
  let pts := Sparkline._recompute width height values in
  length pts = length values
  /\ ((length values < 2)%nat -> Sparkline.paintEvent pts = [])
  /\ ((2 <= length values)%nat ->
      length (Sparkline.paintEvent pts) = length values
      /\ (forall i, (S i < length values)%nat ->
            nth_error (Sparkline.paintEvent pts) i
            = Some (Sparkline.drawLine (nth i pts (0, 0)%float) (nth (S i) pts (0, 0)%float)))
      /\ nth_error (Sparkline.paintEvent pts) (length values - 1)
         = Some (Sparkline.drawEllipse (last pts (0, 0)%float) 3.5 3.5)).
Proof.
  intros pts.
  assert (Hlen : length pts = length values) by apply _recompute_length.
  split; [exact Hlen |]. rewrite <- Hlen. clearbody pts. clear Hlen.
  split.
  - intros Hlt. destruct pts as [|p [|q qs]]; simpl in Hlt; try reflexivity; lia.
  - intros Hge. destruct pts as [|p [|q qs]]; simpl in Hge; try lia.
    cbn [Sparkline.paintEvent].
    split; [| split].
    + rewrite length_app, lines_length. simpl. lia.
    + intros i Hi. simpl in Hi.
      rewrite nth_error_app1 by (rewrite lines_length; simpl; lia).
      rewrite lines_join_neighbours by (simpl; lia).
      f_equal. f_equal; apply nth_indep; simpl; lia.
    + rewrite nth_error_app2 by (rewrite lines_length; simpl; lia).
      rewrite lines_length.
      replace (length (p :: q :: qs) - 1 - length (q :: qs))%nat with 0%nat by (simpl; lia).
      cbn [nth_error]. f_equal. f_equal.
      change (last (p :: q :: qs) (0, 0)%float) with (last (q :: qs) (0, 0)%float).
      apply last_default. discriminate.
Qed.

(** X12: After a completed run of the forecast slot the sparkline shows a curve
    only if the table has at least two rows: with no row or a single row of
    today nothing is drawn, and with n >= 2 rows there are n strokes. *)
Theorem sparkline_after_forecast `{Library} (today : date) (payload : json) (s s' : app)
    (width height : Z) :
  _handle_forecast today payload s = (Ok tt, s') ->
  ((length (model_rows s') < 2)%nat -> Sparkline.drawn width height s' = [])
  /\ ((2 <= length (model_rows s'))%nat ->
      length (Sparkline.drawn width height s') = length (model_rows s')).
Proof.
  intros Hrun.
  assert (Hlen : length (spark_values s') = length (model_rows s')).
  { destruct payload as [| | | | | |d];
      try (unfold _handle_forecast in Hrun; run_slot; discriminate Hrun).
    apply _handle_forecast_ok in Hrun as (rows & trend & rd & Hh & _ & <- & <- & _).
    apply hourly_part_trend in Hh. rewrite Hh. apply length_map. }
  unfold Sparkline.drawn.
  destruct (paintEvent_length
              (Sparkline._recompute width height (spark_values s'))) as [Hfew Hmany].
  rewrite _recompute_length, Hlen in Hfew, Hmany.
  split; [exact Hfew |].
  intros Hge. rewrite Hmany by exact Hge. reflexivity.
Qed.

(** ** More on the favorites *)

Lemma for_each_addItem_names (names : list string) (a : app) :
  for_each (map JStr names) addItem a = (Ok tt, set_fav_box (fav_box a ++ names) a).
Proof.
  revert a. induction names as [|n names IH]; intros a.
  - simpl. rewrite app_nil_r. destruct a; reflexivity.
  - cbn [map for_each]. unfold bindM. rewrite addItem_run. cbn [as_str].
    rewrite IH. cbn [fav_box set_fav_box]. rewrite <- app_assoc. reflexivity.
Qed.

(** With favorites that are a list of names the refill succeeds and the
    combo box lists exactly these names, in order, none of them current. *)
Lemma _refresh_favorites_names (names : list string) (a : app) :
  favorites a = JList (map JStr names) ->
  _refresh_favorites a = (Ok tt, set_fav_box names (set_fav_box_text "" a)).
Proof.
  intros Hfav. unfold _refresh_favorites. run_slot.
  change (favorites (set_fav_box_text "" (set_fav_box [] a))) with (favorites a).
  rewrite Hfav.
  cbn [py_iter]. rewrite for_each_addItem_names. reflexivity.
Qed.

Lemma remove_first_names (c : string) (names : list string) :
  In c names ->
  exists before after,
    names = (before ++ c :: after)%list /\ ~ In c before
    /\ remove_first c (map JStr names) = Some (map JStr (before ++ after)).
Proof.
  induction names as [|n names IH]; intros Hin; [destruct Hin |].
  cbn [map remove_first eq_str].
  destruct (String.eqb_spec n c) as [-> | Hne].
  - exists [], names. repeat split. intros [].
  - destruct Hin as [-> | Hin]; [contradiction |].
    destruct (IH Hin) as (before & after & -> & Hnb & ->).
    exists (n :: before), after. repeat split.
    intros [-> | Hb]; [contradiction | exact (Hnb Hb)].
Qed.

Lemma py_contains_names (c : string) (names : list string) :
  py_contains c (JList (map JStr names)) = Ok (if in_dec string_dec c names then true else false).
Proof.
  destruct (in_dec string_dec c names) as [Hin | Hnin].
  - apply py_contains_list. apply in_map. exact Hin.
  - apply py_contains_list_false. intros Hin. apply in_map_iff in Hin as (x & [= ->] & Hx).
    exact (Hnin Hx).
Qed.

Lemma favorites_after_setdefault (a : app) :
  favorites (set_prefs (snd (dict_setdefault "favorites" (JList []) (prefs a))) a)
  = favorites a
  /\ fst (dict_setdefault "favorites" (JList []) (prefs a)) = favorites a.
Proof.
  unfold favorites. cbn [prefs set_prefs]. apply setdefault_keeps_favorites.
Qed.

Lemma set_prefs_twice (x y : dict) (a : app) : set_prefs x (set_prefs y a) = set_prefs x a.
Proof. reflexivity. Qed.

Section FavoriteNames.
Variable s : app.
Variable names : list string.
Hypothesis Hfav : favorites s = JList (map JStr names).

(** The run of [_fav_add] on a new name: [d'] is the preferences dict after
    the append. *)
Lemma _fav_add_run :
  strip (city_edit s) <> "" -> ~ In (strip (city_edit s)) names ->
  exists d',
    _fav_add s
    = (Ok tt, set_fav_box (names ++ [strip (city_edit s)])
                (set_fav_box_text ""
                   (set_prefs_file (prefs_file s ++ [d']) (set_prefs d' s))))
    /\ dict_get_or "favorites" (JList []) d' = JList (map JStr (names ++ [strip (city_edit s)]))
    /\ (forall k, k <> "favorites" -> dict_get k d' = dict_get k (prefs s)).
Proof.
  set (c := strip (city_edit s)). intros Hc Hnin.
  destruct (favorites_after_setdefault s) as [Hkeep Hfst]. rewrite Hfav in Hkeep, Hfst.
  unfold _fav_add. run_slot. fold c.
  destruct (String.eqb_spec c ""); [contradiction |].
  unfold setdefault_favorites.
  destruct (dict_setdefault "favorites" (JList []) (prefs s)) as [favs d] eqn:Hsd.
  cbn [fst snd] in Hkeep, Hfst. subst favs. run_slot.
  rewrite py_contains_names.
  destruct (in_dec string_dec c names) as [Hin |]; [contradiction |].
  cbn [negb py_append]. run_slot. rewrite set_prefs_twice.
  exists (dict_set "favorites" (JList (map JStr names ++ [JStr c])) d).
  assert (Hnew : dict_get_or "favorites" (JList [])
                   (dict_set "favorites" (JList (map JStr names ++ [JStr c])) d)
                 = JList (map JStr (names ++ [c])))
    by (rewrite dict_get_or_set_same, map_app; reflexivity).
  rewrite (_refresh_favorites_names (names ++ [c])) by exact Hnew.
  split; [reflexivity |]. split; [exact Hnew |].
  intros k Hk. rewrite dict_get_set_other by congruence.
  unfold dict_setdefault in Hsd.
  destruct (dict_get "favorites" (prefs s)); injection Hsd as _ <-; [reflexivity |].
  apply dict_get_set_other. congruence.
Qed.

(** The run of [_fav_remove] on a name of the list. *)
Lemma _fav_remove_run :
  strip (fav_box_text s) <> "" -> In (strip (fav_box_text s)) names ->
  exists before after d',
    names = (before ++ strip (fav_box_text s) :: after)%list
    /\ ~ In (strip (fav_box_text s)) before
    /\ _fav_remove s
       = (Ok tt, set_fav_box (before ++ after)
                   (set_fav_box_text ""
                      (set_prefs_file (prefs_file s ++ [d']) (set_prefs d' s))))
    /\ dict_get_or "favorites" (JList []) d' = JList (map JStr (before ++ after)).
Proof.
  set (c := strip (fav_box_text s)). intros Hc Hin.
  destruct (remove_first_names c names Hin) as (before & after & Hsplit & Hnb & Hrem).
  exists before, after.
  destruct (favorites_after_setdefault s) as [Hkeep Hfst]. rewrite Hfav in Hkeep, Hfst.
  unfold _fav_remove. run_slot. fold c.
  destruct (String.eqb_spec c ""); [contradiction |].
  unfold setdefault_favorites.
  destruct (dict_setdefault "favorites" (JList []) (prefs s)) as [favs d] eqn:Hsd.
  cbn [fst snd] in Hkeep, Hfst. subst favs. run_slot.
  rewrite py_contains_names.
  destruct (in_dec string_dec c names) as [_ | Hnin]; [| contradiction].
  cbn [py_remove]. rewrite Hrem. run_slot. rewrite set_prefs_twice.
  exists (dict_set "favorites" (JList (map JStr (before ++ after))) d).
  assert (Hnew : dict_get_or "favorites" (JList [])
                   (dict_set "favorites" (JList (map JStr (before ++ after))) d)
                 = JList (map JStr (before ++ after)))
    by apply dict_get_or_set_same.
  rewrite (_refresh_favorites_names (before ++ after)) by exact Hnew.
  repeat split; assumption.
Qed.


(** X14: Removing a name that is among the favorites takes out its first
    occurrence and keeps the others in their order; the preferences are
    written once and the combo box is refilled with the new list. *)
Theorem _fav_remove_takes_first :
  let c := strip (fav_box_text s) in
  c <> "" -> In c names ->
  let s' := snd (_fav_remove s) in
  exists before after,
    names = (before ++ c :: after)%list /\ ~ In c before
    /\ fst (_fav_remove s) = Ok tt
    /\ favorites s' = JList (map JStr (before ++ after))
    /\ prefs_file s' = (prefs_file s ++ [prefs s'])%list
    /\ fav_box s' = (before ++ after)%list.
Proof.
  intros c Hc Hin s'. subst s' c.
  destruct (_fav_remove_run Hc Hin) as (before & after & d' & Hsplit & Hnb & -> & Hnew).
  exists before, after.
  cbn [fst snd]. unfold favorites.
  cbn [prefs prefs_file fav_box set_fav_box set_fav_box_text set_prefs_file set_prefs].
  repeat split; assumption.
Qed.
End FavoriteNames.

Lemma split_at_new_name (c : string) (names before after : list string) :
  ~ In c names -> ~ In c before ->
  (names ++ [c] = before ++ c :: after)%list ->
  before = names /\ after = [].
Proof.
  revert before. induction names as [|n names IH]; intros before Hnin Hnb Heq.
  - destruct before as [|b before]; simpl in Heq.
    + injection Heq as <-. split; reflexivity.
    + injection Heq as <- _. exfalso. apply Hnb. left. reflexivity.
  - destruct before as [|b before]; simpl in Heq.
    + injection Heq as -> _. exfalso. apply Hnin. left. reflexivity.
    + injection Heq as <- Heq.
      destruct (IH before) as [-> ->]; try assumption.
      * intros Hin. apply Hnin. right. exact Hin.
      * intros Hin. apply Hnb. right. exact Hin.
      * split; reflexivity.
Qed.

(** X15: Adding a new name and then removing it gives back the favorites as they
    were: the same names in the same order, in the preferences and in the
    combo box. *)
Theorem fav_add_then_remove (s : app) (names : list string) (t : string) :
  favorites s = JList (map JStr names) ->
  strip (city_edit s) <> "" ->
  ~ In (strip (city_edit s)) names ->
  strip t = strip (city_edit s) ->
  let s1 := snd (_fav_add s) in
  let s2 := snd (_fav_remove (set_fav_box_text t s1)) in
  fst (_fav_remove (set_fav_box_text t s1)) = Ok tt
  /\ favorites s2 = favorites s
  /\ fav_box s2 = names.
Proof.
  intros Hfav Hc Hnin Ht s1 s2. subst s2 s1.
  destruct (_fav_add_run s names Hfav Hc Hnin) as (d' & -> & Hnew & _).
  cbn [snd].
  set (s1 := set_fav_box_text t _).
  assert (Hfav1 : favorites s1 = JList (map JStr (names ++ [strip (city_edit s)])))
    by exact Hnew.
  assert (Htext : strip (fav_box_text s1) = strip (city_edit s)) by exact Ht.
  destruct (_fav_remove_run s1 _ Hfav1) as (before & after & d2 & Hsplit & Hnb & -> & Hnew2).
  - rewrite Htext. exact Hc.
  - rewrite Htext. apply in_or_app. right. left. reflexivity.
  - rewrite Htext in Hsplit, Hnb.
    destruct (split_at_new_name _ _ _ _ Hnin Hnb Hsplit) as [-> ->].
    rewrite app_nil_r in Hnew2 |- *.
    cbn [fst snd]. unfold favorites at 1.
    cbn [prefs fav_box set_fav_box set_fav_box_text set_prefs_file set_prefs].
    split; [reflexivity |]. split; [| reflexivity].
    rewrite Hnew2. symmetry. exact Hfav.
Qed.


Lemma for_each_addItem_shape (items : list json) (a : app) :
  exists box, snd (for_each items addItem a) = set_fav_box box a.
Proof.
  revert a. induction items as [|c items IH]; intros a.
  - exists (fav_box a). destruct a; reflexivity.
  - cbn [for_each]. unfold bindM. rewrite addItem_run.
    destruct (as_str c) as [t|e].
    + destruct (IH (set_fav_box (fav_box a ++ [t]) a)) as [box Hbox].
      exists box. rewrite Hbox. reflexivity.
    + exists (fav_box a). destruct a; reflexivity.
Qed.

Lemma _refresh_favorites_shape (a : app) :
  exists box, snd (_refresh_favorites a) = set_fav_box box (set_fav_box_text "" a).
Proof.
  unfold _refresh_favorites. run_slot.
  destruct (py_iter _) as [items|e]; [| exists []; reflexivity].
  destruct (for_each_addItem_shape items (set_fav_box_text "" (set_fav_box [] a)))
    as [box Hbox].
  exists box. rewrite Hbox. reflexivity.
Qed.

Lemma frame_kept (a : app) :
  only_favorites_changed a a /\ refilled_or_untouched a a.
Proof.
  split; [| left; repeat split].
  unfold only_favorites_changed. destruct a; reflexivity.
Qed.

Lemma frame_after_setdefault (d : dict) (a : app) :
  only_favorites_changed a (set_prefs d a) /\ refilled_or_untouched a (set_prefs d a).
Proof.
  split; [| left; repeat split].
  unfold only_favorites_changed. reflexivity.
Qed.

Lemma frame_after_refresh (a b : app) :
  (exists p, b = set_prefs_file (prefs_file a ++ [p]) (set_prefs p a)) ->
  only_favorites_changed a (snd (_refresh_favorites b))
  /\ refilled_or_untouched a (snd (_refresh_favorites b)).
Proof.
  intros (p & ->).
  destruct (_refresh_favorites_shape (set_prefs_file (prefs_file a ++ [p]) (set_prefs p a)))
    as [box ->].
  split; [unfold only_favorites_changed; reflexivity |].
  right. split; reflexivity.
Qed.

(** X18: The two favorites slots touch nothing but the preferences, their file
    and the favorites combo box, however they end: no request, no message
    box, no change to the city field or to the view.  The box is refilled
    only together with a save: either its items, its current text and the
    file are as before, or one document was written, the preferences as they
    now are, and the box is left without a current item. *)
Theorem favorites_slots_frame (s : app) :
  (only_favorites_changed s (snd (_fav_add s))
   /\ refilled_or_untouched s (snd (_fav_add s)))
  /\ (only_favorites_changed s (snd (_fav_remove s))
      /\ refilled_or_untouched s (snd (_fav_remove s))).
Proof.
  split.
  - unfold _fav_add. run_slot.
    destruct (String.eqb (strip (city_edit s)) ""); [apply frame_kept |].
    unfold setdefault_favorites.
    destruct (dict_setdefault "favorites" (JList []) (prefs s)) as [favs d].
    run_slot.
    destruct (py_contains (strip (city_edit s)) favs) as [[|]|e]; cbn [negb snd];
      try apply frame_after_setdefault.
    destruct (py_append (strip (city_edit s)) favs) as [favs'|e]; cbn [snd];
      [| apply frame_after_setdefault].
    apply frame_after_refresh. eexists. reflexivity.
  - unfold _fav_remove. run_slot.
    destruct (String.eqb (strip (fav_box_text s)) ""); [apply frame_kept |].
    unfold setdefault_favorites.
    destruct (dict_setdefault "favorites" (JList []) (prefs s)) as [favs d].
    run_slot.
    destruct (py_contains (strip (fav_box_text s)) favs) as [[|]|e]; cbn [snd];
      try apply frame_after_setdefault.
    destruct (py_remove (strip (fav_box_text s)) favs) as [favs'|e]; cbn [snd];
      [| apply frame_after_setdefault].
    apply frame_after_refresh. eexists. reflexivity.
Qed.

(** ** The guarded triggers *)

Lemma fetch_run (s : app) :
  strip (city_edit s) <> "" ->
  fetch s
  = (Ok tt,
     set_requests
       (requests s ++ [Build_request (OPEN_METEO_GEOCODE (strip (city_edit s))) "geocode"])
       (set_prefs_file
          (prefs_file s
           ++ [dict_set "unit" (JStr (if endswith (unit_box s) "F" then "F" else "C")) (prefs s)])
          (set_prefs
             (dict_set "unit" (JStr (if endswith (unit_box s) "F" then "F" else "C")) (prefs s))
             (set_fetch_btn false s)))).
Proof.
  intros Hname. unfold fetch. run_slot.
  destruct (String.eqb_spec (strip (city_edit s)) ""); [contradiction | reflexivity].
Qed.

(** X19: The refresh timer and a change of unit never show a message box: with
    a blank city field they leave the whole state as it is, where the Fetch
    button would show "Missing"; otherwise they do what the button does,
    and issue one geocode request. *)
Theorem guarded_triggers_never_prompt (s : app) :
  dialogs (snd (auto_timer_timeout s)) = dialogs s
  /\ (strip (city_edit s) = "" ->
      auto_timer_timeout s = (Ok tt, s) /\ dialogs (snd (fetch s)) <> dialogs s)
  /\ (strip (city_edit s) <> "" ->
      auto_timer_timeout s = fetch s
      /\ length (requests (snd (auto_timer_timeout s))) = S (length (requests s)))
  /\ unit_box_currentIndexChanged s = auto_timer_timeout s.
Proof.
  unfold auto_timer_timeout, unit_box_currentIndexChanged. run_slot.
  destruct (String.eqb_spec (strip (city_edit s)) "") as [Hblank | Hname].
  - split; [reflexivity |]. split; [| split; [intros Hne; contradiction | reflexivity]].
    intros _. split; [reflexivity |].
    unfold fetch. run_slot. rewrite Hblank. cbn [String.eqb snd dialogs set_dialogs].
    intros Heq. apply (f_equal (@length dialog)) in Heq.
    rewrite length_app in Heq. simpl in Heq. lia.
  - rewrite (fetch_run s Hname). cbn [snd dialogs requests set_requests set_prefs_file
                                        set_prefs set_fetch_btn].
    split; [reflexivity |]. split; [intros Hb; contradiction |].
    split; [| reflexivity]. intros _. split; [reflexivity |].
    rewrite length_app. simpl. lia.
Qed.

(** X20: Choosing a favorite puts its name in the city field and fetches it: one
    geocode request for the stripped name, with the Fetch button disabled;
    the empty choice, which the combo box reports when it is cleared, does
    nothing.  A favorite of white space only, which only a hand-edited
    preferences file can hold, goes to the city field too and is then turned
    down by [fetch] with the "Missing" box, no request being made. *)
Theorem _fav_selected_fetches (name : string) (s : app) :
  (name = "" -> _fav_selected name s = (Ok tt, s))
  /\ (strip name <> "" ->
      let s' := snd (_fav_selected name s) in
      fst (_fav_selected name s) = Ok tt
      /\ city_edit s' = name
      /\ requests s'
         = (requests s ++ [Build_request (OPEN_METEO_GEOCODE (strip name)) "geocode"])%list
      /\ fetch_btn s' = false
      /\ dialogs s' = dialogs s)
  /\ (name <> "" -> strip name = "" ->
      _fav_selected name s
      = (Ok tt, set_dialogs (dialogs s ++ [missing_city]) (set_city_edit name s))).
Proof.
  split; [| split].
  - intros ->. reflexivity.
  - intros Hname s'. subst s'.
    assert (Hne : name <> "") by (intros ->; apply Hname; reflexivity).
    unfold _fav_selected.
    destruct (String.eqb_spec name ""); [contradiction |].
    run_slot.
    rewrite (fetch_run (set_city_edit name s)) by exact Hname.
    repeat split.
  - intros Hne Hblank. unfold _fav_selected.
    destruct (String.eqb_spec name ""); [contradiction |].
    unfold fetch. run_slot. rewrite Hblank. reflexivity.
Qed.

(** ** Replies that are not what the slots expect *)

Section OddReplies.
Context `{Library}.

(** X21: A forecast reply whose body is not JSON at all is taken for the empty
    object: the slot completes, shows 0 degrees and "Clear" with an empty
    table, sparkline and strip, starts the refresh timer and saves the city,
    and no message box tells the user. *)
Theorem unparseable_forecast_shows_default (today : date) (r : reply) (s : app)
    (place : string) :
  reply_kind r = "forecast" ->
  reply_body r = None ->
  _resolved_place s = Some place ->
  let out := _on_reply today r s in
  fst out = Ok tt
  /\ header (snd out)
     = "0" ++ degree ++ py_str (dict_get_or "unit" (JStr "F") (prefs s))
       ++ " " ++ dash ++ " Clear"
  /\ model_rows (snd out) = []
  /\ spark_values (snd out) = []
  /\ daily_strip (snd out) = []
  /\ auto_timer (snd out) = true
  /\ dict_get "last_city" (prefs (snd out)) = Some (JStr (strip (city_edit s)))
  /\ dialogs (snd out) = dialogs s.
Proof.
  intros Hkind Hbody Hplace.
  unfold _on_reply. rewrite Hkind, Hbody.
  change (if ("forecast" =? "geocode")%string then _handle_geocode (JDict [])
          else if ("forecast" =? "forecast")%string then _handle_forecast today (JDict [])
          else ret tt)
    with (_handle_forecast today (JDict [])).
  unfold _handle_forecast. cbn [py_get]. run_slot.
  cbn [py_or truthy dict_get_or dict_get py_get py_int py_format_0f]. run_slot.
  rewrite Hplace. run_slot.
  cbv zeta. cbn [fst snd]. run_slot.
  repeat split. apply dict_get_set_same.
Qed.

(** X22: A reply whose body is JSON but not an object makes either slot raise
    [AttributeError] at its first step, with the state untouched: nothing is
    shown and the Fetch button stays disabled. *)
Theorem non_object_payload_raises (today : date) (payload : json) (s : app) :
  (forall d, payload <> JDict d) ->
  _handle_geocode payload s = (Raise AttributeError, s)
  /\ _handle_forecast today payload s = (Raise AttributeError, s).
Proof.
  intros Hnot.
  destruct payload; try (split; reflexivity).
  exfalso. eapply Hnot. reflexivity.
Qed.
End OddReplies.

(** ** Worked instances *)

Lemma _handle_geocode_resolves_witness :
  _resolved_place
    (snd (_handle_geocode (JDict [("results", JList [JDict fort_myers_place])]) initial_app))
  = Some "Fort Myers, Florida, United States".
Proof.
  rewrite (_handle_geocode_resolves [("results", JList [JDict fort_myers_place])]
             fort_myers_place [] (JInt 26) (JInt (-81)) initial_app eq_refl eq_refl eq_refl).
  - reflexivity.
  - constructor; [right; eexists; reflexivity |].
    constructor; [right; eexists; reflexivity |].
    constructor; [right; eexists; reflexivity | constructor].
Defined.

Lemma fetch_then_geocode_units_witness :
  dict_get_or "unit" JNull (prefs (snd (fetch celsius_chosen))) = JStr "C"
  /\ fetch_btn (snd (fetch celsius_chosen)) = false.
Proof.
  assert (Hname : strip (city_edit celsius_chosen) <> "") by (vm_compute; discriminate).
  destruct (fetch_then_geocode_units nov3 celsius_chosen
              {| reply_kind := "geocode"; reply_body := Some fort_myers_geocode |}
              Hname eq_refl) as (Hunit & Hbtn & _).
  split; [exact Hunit | exact Hbtn].
Defined.

Lemma _handle_forecast_view_witness :
  spark_values (snd (_handle_forecast nov3 (JDict two_day_forecast) after_geocode))
  = map row_temp (model_rows (snd (_handle_forecast nov3 (JDict two_day_forecast) after_geocode))).
Proof.
  apply (_handle_forecast_view nov3 (JDict two_day_forecast) after_geocode).
  reflexivity.
Defined.

Lemma _handle_forecast_persists_witness :
  dict_get "last_city"
    (prefs (snd (_handle_forecast nov3 (JDict two_day_forecast) after_geocode)))
  = Some (JStr "Fort Myers").
Proof.
  apply (_handle_forecast_persists nov3 (JDict two_day_forecast) after_geocode).
  reflexivity.
Defined.

Lemma time_label_round_trip_witness :
  strptime_IMp (lstrip_zero (strftime_IMp one_pm)) = Some (13, 5).
Proof.
  apply (time_label_round_trip one_pm); simpl; lia.
Defined.

Lemma current_hour_highlight_witness :
  HourlyModel.data
    [{| row_time := "1:05 PM"; row_temp := 0; row_precip := 0; row_wind := 0 |}] 13
    (HourlyModel.Valid 0 2) HourlyModel.BackgroundRole
  = Ok HourlyModel.VBrush.
Proof.
  apply (current_hour_highlight (JList []) (JList []) (JList []) 0 one_pm
           [{| row_time := "1:05 PM"; row_temp := 0; row_precip := 0; row_wind := 0 |}]
           13 0 2 _ eq_refl);
    [simpl; lia | simpl; lia | reflexivity].
Defined.

Lemma table_model_bounds_witness :
  (exists v, HourlyModel.data (model_rows (snd fort_myers_run)) 13 (HourlyModel.Valid 1 1)
               HourlyModel.DisplayRole = Ok v)
  /\ HourlyModel.data (model_rows (snd fort_myers_run)) 13 (HourlyModel.Valid 2 0)
       HourlyModel.DisplayRole = Raise IndexError.
Proof.
  split.
  - apply (table_model_bounds (model_rows (snd fort_myers_run)) 13 1 1 HourlyModel.DisplayRole).
    simpl. lia.
  - apply (table_model_bounds (model_rows (snd fort_myers_run)) 13 2 0 HourlyModel.DisplayRole).
    simpl. lia.
Defined.

Lemma sparkline_strokes_witness :
  length (Sparkline.paintEvent (Sparkline._recompute 224 124 [70; 80; 75]%float)) = 3%nat
  /\ Sparkline.paintEvent (Sparkline._recompute 224 124 [70]%float) = [].
Proof.
  split.
  - apply (sparkline_strokes 224 124 [70; 80; 75]%float). simpl. lia.
  - apply (sparkline_strokes 224 124 [70]%float). simpl. lia.
Defined.

Lemma sparkline_after_forecast_witness :
  length (Sparkline.drawn 224 124
            (snd (_handle_forecast nov3 (JDict two_day_forecast) after_geocode))) = 4%nat.
Proof.
  destruct (sparkline_after_forecast nov3 (JDict two_day_forecast) after_geocode
              (snd (_handle_forecast nov3 (JDict two_day_forecast) after_geocode)) 224 124)
    as [_ Hmany]; [reflexivity |].
  apply Hmany. vm_compute. lia.
Defined.


Lemma _fav_remove_takes_first_witness :
  exists before after,
    ["Tampa"; "Naples"] = (before ++ "Tampa" :: after)%list
    /\ favorites (snd (_fav_remove (set_fav_box_text "Tampa" two_favorites)))
       = JList (map JStr (before ++ after)).
Proof.
  destruct (_fav_remove_takes_first (set_fav_box_text "Tampa" two_favorites)
              ["Tampa"; "Naples"] eq_refl) as (before & after & Hsplit & _ & _ & Hfav & _).
  - vm_compute. discriminate.
  - vm_compute. left. reflexivity.
  - exists before, after. split; [exact Hsplit | exact Hfav].
Defined.

Lemma fav_add_then_remove_witness :
  favorites
    (snd (_fav_remove
            (set_fav_box_text " Miami"
               (snd (_fav_add (set_city_edit "Miami" two_favorites))))))
  = JList [JStr "Tampa"; JStr "Naples"].
Proof.
  apply (fav_add_then_remove (set_city_edit "Miami" two_favorites) ["Tampa"; "Naples"] " Miami"
           eq_refl).
  - vm_compute. discriminate.
  - vm_compute. intros [Heq | [Heq | []]]; discriminate Heq.
  - reflexivity.
Defined.

Lemma guarded_triggers_never_prompt_witness :
  auto_timer_timeout (set_city_edit blank_text initial_app)
  = (Ok tt, set_city_edit blank_text initial_app)
  /\ length (requests (snd (auto_timer_timeout celsius_chosen))) = 1%nat.
Proof.
  destruct (guarded_triggers_never_prompt (set_city_edit blank_text initial_app))
    as (_ & Hblank & _).
  destruct (guarded_triggers_never_prompt celsius_chosen) as (_ & _ & Hname & _).
  split.
  - apply Hblank. reflexivity.
  - apply Hname. vm_compute. discriminate.
Defined.

Lemma _fav_selected_fetches_witness :
  city_edit (snd (_fav_selected "Naples" two_favorites)) = "Naples"
  /\ _fav_selected "" two_favorites = (Ok tt, two_favorites)
  /\ requests (snd (_fav_selected no_break_space two_favorites)) = [].
Proof.
  destruct (_fav_selected_fetches "Naples" two_favorites) as (_ & Hname & _).
  destruct (_fav_selected_fetches "" two_favorites) as (Hempty & _).
  destruct (_fav_selected_fetches no_break_space two_favorites) as (_ & _ & Hblank).
  split; [| split].
  - apply Hname. vm_compute. discriminate.
  - apply Hempty. reflexivity.
  - rewrite Hblank; [reflexivity | discriminate | reflexivity].
Defined.

Lemma unparseable_forecast_shows_default_witness :
  auto_timer
    (snd (_on_reply nov3 {| reply_kind := "forecast"; reply_body := None |} after_geocode))
  = true.
Proof.
  apply (unparseable_forecast_shows_default nov3
           {| reply_kind := "forecast"; reply_body := None |} after_geocode
           "Fort Myers, Florida, United States" eq_refl eq_refl eq_refl).
Defined.

Lemma non_object_payload_raises_witness :
  _handle_forecast nov3 (JList []) after_geocode = (Raise AttributeError, after_geocode).
Proof.
  apply (non_object_payload_raises nov3 (JList []) after_geocode).
  intros d Hd. discriminate Hd.
Defined.
